(** * podman machine bootc vmrun: disk cache, transient VM launch (applehv)

    A shallow embedding of
      - cmd/podman/machine/bootc/vmrun.go   (createDiskImage,
        getOrCreateDiskImage, vmrun),
      - pkg/machine/applehv/vfkit.go        (getBasicDevices, getDebugDevices),
      - the applehv provider                (List, SpawnTransient,
        loadFromLocalJson),
    together with the properties of the specification that concern them.

    Go functions that return [(T, error)] become computations in a small
    state-and-error monad over a [World]: the file system, the source of
    random temporary names, and the trace of everything that crosses the
    process boundary (subprocesses, logging, interface calls).  Results of
    the operating system that the program cannot influence (a system call
    failing, the exit status of a subprocess) are read from a [Host]
    oracle, one entry per call site. *)

From Stdlib Require Import ZArith Ascii String List Lia DecimalString.
From stdpp Require Import base gmap strings list.

Local Open Scope Z_scope.
Local Open Scope string_scope.
Local Open Scope list_scope.

(** ** Errors *)

Module Errors.

Inductive errno :=
| ENOENT | EACCES | EPERM | EEXIST | EBADF | ENODATA | ERANGE
| ENOSPC | EIO | ENOTSUP | ECONNREFUSED | ETIMEDOUT.

(** Go [error] values as the program meets them. *)
Inductive error :=
| Errno (e : errno)                          (* syscall.Errno *)
| PathError (op path : string) (err : error) (* *fs.PathError, *os.LinkError *)
| Wrapf (context : string) (err : error)     (* fmt.Errorf("context: %w", err) *)
| ErrorString (msg : string)                 (* errors.New *)
| ExitError (code : Z).                      (* *exec.ExitError *)

Inductive Res (A : Type) :=
| Ok (a : A)
| Err (e : error).
Arguments Ok {A} a.
Arguments Err {A} e.

Definition errno_eqb (a b : errno) : bool :=
  match a, b with
  | ENOENT, ENOENT | EACCES, EACCES | EPERM, EPERM | EEXIST, EEXIST
  | EBADF, EBADF | ENODATA, ENODATA | ERANGE, ERANGE | ENOSPC, ENOSPC
  | EIO, EIO | ENOTSUP, ENOTSUP | ECONNREFUSED, ECONNREFUSED
  | ETIMEDOUT, ETIMEDOUT => true
  | _, _ => false
  end.

(** The sentinels of package os. *)
Definition os_ErrNotExist : error := ErrorString "file does not exist".
Definition os_ErrExist : error := ErrorString "file already exists".
Definition os_ErrPermission : error := ErrorString "permission denied".

(** [syscall.Errno.Is]. *)
Definition Errno_Is (e : errno) (target : error) : bool :=
  match target with
  | ErrorString m =>
      if String.eqb m "file does not exist" then errno_eqb e ENOENT
      else if String.eqb m "file already exists" then errno_eqb e EEXIST
      else if String.eqb m "permission denied"
           then errno_eqb e EACCES || errno_eqb e EPERM
      else false
  | _ => false
  end.

(** [errors.Is]: walk the chain of wrapped errors; at each link compare
    with the target, then ask the link's own [Is] method.  Wrappers are
    pointers and never equal to a sentinel. *)
Fixpoint errors_Is (err target : error) : bool :=
  match err with
  | Errno e =>
      match target with
      | Errno t => errno_eqb e t
      | _ => Errno_Is e target
      end
  | PathError _ _ inner => errors_Is inner target
  | Wrapf _ inner => errors_Is inner target
  | ErrorString m =>
      match target with
      | ErrorString t => String.eqb m t
      | _ => false
      end
  | ExitError _ => false
  end.

End Errors.
Export Errors.

(** ** The world outside the process *)

Module OS.

Inductive filedata :=
| Empty                                 (* a freshly created file *)
| Zeros (size : Z)                      (* sparse, after ftruncate *)
| Bytes (s : string)                    (* written by this process *)
| Installed (image : string)            (* a disk the installer finished *)
| Partial (image : string).             (* a disk the installer gave up on *)

Record file := mkFile {
  f_data : filedata;
  f_mode : Z;
  f_xattr : gmap string string
}.

(** Device descriptors of the vfkit configuration library. *)
Inductive VirtioInputKind := VirtioInputPointingDevice | VirtioInputKeyboardDevice.

Inductive VirtioDevice :=
| VirtioRng
| VirtioBlk (imagePath : string)
| VirtioSerialFile (logPath : string)
| VirtioSerialStdio
| VirtioVsock (port : Z) (socketURL : string) (listen : bool)
| VirtioGPU
| VirtioInput (kind : VirtioInputKind).

Record Bootloader := NewEFIBootloader {
  efiVariableStorePath : string;
  createVariableStore : bool
}.

Record VirtualMachine := mkVirtualMachine {
  Vcpus : Z;
  Memory : Z;
  VMBootloader : Bootloader;
  Devices : list VirtioDevice
}.

(** machine.SpawnTransientOpts *)
Record SpawnTransientOpts := mkSpawnTransientOpts {
  Cpus : Z;
  MemoryMiB : Z;
  Disk : string;
  Gui : bool;
  VMDebug : bool
}.

Inductive loglevel := Debug | Info | Warn.

(** Everything observable from outside, in program order. *)
Inductive event :=
| EvCreate (path : string)
| EvRemove (path : string)
| EvRemoveAll (path : string)
| EvMkdirAll (path : string)
| EvFsetxattr (path name value : string)
| EvRename (oldpath newpath : string)
| EvExec (argv : list string)
| EvLog (level : loglevel) (format : string) (arg : option error)
| EvStdout (text : string)
| EvSpawnTransient (opts : SpawnTransientOpts)
| EvVfkitCmd (vfkitPath : string) (vm : VirtualMachine).

Record World := mkWorld {
  w_fs : gmap string file;
  w_rand : list string;
  w_trace : list event
}.

(** Call sites whose outcome is decided outside the program. *)
Inductive site :=
(* createDiskImage *)
| CreateTempDisk | FtruncateDisk | CreateTempEntrypoint | CopyEntrypoint
| ChmodEntrypoint | PodmanRunInstall | FsetxattrMeta | RenameDisk
(* vmrun *)
| PersistentPreRunE | GetGlobalDataDir | MkdirAllCache | InspectProbe
| PodmanPull | InspectDigest | CreateTempClone | CpClone | ProviderGet
(* applehv SpawnTransient *)
| ConfigDefault | MkdirTemp | MkdirAllEfi | FindHelperBinary
| AtVirtioRngNew | AtVirtioBlkNew | AtVirtioGPUNew | AtVirtioInputNewPointing
| AtVirtioInputNewKeyboard | AtVirtioSerialNewStdio | AtVirtioSerialNew
| AtVirtioVsockNew | VmconfigCmd | VfkitRun
(* applehv loadFromLocalJson *)
| GetConfDir.

(** define.Status *)
Inductive Status := Running | Stopped | Starting | Unknown.

(** The persisted record of an applehv machine, as far as List reads it. *)
Record MacMachine := mkMacMachine {
  mm_Name : string;
  mm_Created : Z;
  mm_LastUp : Z;
  mm_ImageStream : string;
  mm_CPUs : Z;
  mm_Memory : Z;
  mm_DiskSize : Z;
  mm_Port : Z;
  mm_RemoteUsername : string;
  mm_IdentityPath : string;
  mm_Endpoint : string            (* mm.Vfkit.Endpoint *)
}.

(** One entry handed by filepath.WalkDir to its callback. *)
Record walkEntry := mkWalkEntry {
  we_input : string;
  we_name : string;
  we_err : option error
}.

Record Host := mkHost {
  fault : site -> option error;   (* None: the call succeeds *)
  inspect_stdout : string;        (* what image inspect prints *)
  globalDataDir : string;         (* machine.GetGlobalDataDir *)
  tempDir : string;               (* os.TempDir *)
  vfkitHelper : string;           (* cfg.FindHelperBinary *)
  confDir : string;               (* machine.GetConfDir *)
  confDirWalk : list walkEntry;   (* what filepath.WalkDir visits *)
  loadMacMachineFromJSON : string -> Res MacMachine;
  vfkitState : string -> Res Status   (* mm.Vfkit.State, by endpoint *)
}.

End OS.
Export OS.

(** ** Library functions the program calls

    Functions of the Go standard library whose exact behaviour is not the
    subject of this development are taken as an interface. *)

(** diskFromContainerMeta is serialized to JSON in a user xattr on a disk image *)
Record diskFromContainerMeta := mkMeta {
  ImageDigest : string
}.

Class GoLib := {
  filepath_Join : string -> string -> string;
  filepath_Dir : string -> string;
  strings_TrimSpace : string -> string;
  json_Marshal : diskFromContainerMeta -> Res string;
  json_Unmarshal : string -> Res diskFromContainerMeta
}.

(** ** The monad *)

Module Monad.

Definition M (A : Type) : Type := World -> Res A * World.

Definition ret {A} (a : A) : M A := fun w => (Ok a, w).

Definition fail {A} (e : error) : M A := fun w => (Err e, w).

Definition bind {A B} (m : M A) (k : A -> M B) : M B :=
  fun w =>
    match m w with
    | (Ok a, w') => k a w'
    | (Err e, w') => (Err e, w')
    end.

(** [err := f(); if err != nil { ... }]: the error as a value. *)
Definition try {A} (m : M A) : M (Res A) :=
  fun w => let '(r, w') := m w in (Ok r, w').

(** Back from a value to the error channel. *)
Definition lift {A} (r : Res A) : M A :=
  match r with
  | Ok a => ret a
  | Err e => fail e
  end.

(** [defer cleanup; body]: the cleanup runs on every return of the body. *)
Definition defer {A} (cleanup : World -> World) (body : M A) : M A :=
  fun w => let '(r, w') := body w in (r, cleanup w').

Definition emit (ev : event) : World -> World :=
  fun w => mkWorld (w_fs w) (w_rand w) (w_trace w ++ [ev]).

Definition set_fs (fs : gmap string file) : World -> World :=
  fun w => mkWorld fs (w_rand w) (w_trace w).

Definition set_rand (r : list string) : World -> World :=
  fun w => mkWorld (w_fs w) r (w_trace w).

(** An effect that cannot fail. *)
Definition effect (f : World -> World) : M unit :=
  fun w => (Ok tt, f w).

(** A call whose failure is decided by the host. *)
Definition check (h : Host) (s : site) : M unit :=
  match fault h s with
  | Some e => fail e
  | None => ret tt
  end.

End Monad.
Export Monad.

Notation "x <- c1 ;; c2" := (bind c1 (fun x => c2))
  (at level 100, c1 at next level, right associativity).
Notation "c1 ;;; c2" := (bind c1 (fun _ => c2))
  (at level 100, right associativity).

(** ** Operating-system and library calls *)

Module Sys.

(** *os.File: nil, or an open file (identified by its path). *)
Inductive File :=
| nilFile
| openFile (name : string).

(** [File.Name] *)
Definition File_Name (f : File) : string :=
  match f with
  | nilFile => ""
  | openFile name => name
  end.

Definition log (level : loglevel) (format : string) (arg : option error) : M unit :=
  effect (emit (EvLog level format arg)).

(** [os.Open]: the file must exist and be readable by its owner (0o400). *)
Definition os_Open (name : string) : M File :=
  fun w =>
    match w_fs w !! name with
    | None => (Err (PathError "open" name (Errno ENOENT)), w)
    | Some f =>
        if Z.testbit (f_mode f) 8
        then (Ok (openFile name), w)
        else (Err (PathError "open" name (Errno EACCES)), w)
    end.

(** [unix.Fgetxattr(fd, attr, buf)] with a buffer of [size] bytes; the
    descriptor of a nil file is -1. *)
Definition unix_Fgetxattr (f : File) (attr : string) (size : Z) : M string :=
  fun w =>
    match f with
    | nilFile => (Err (Errno EBADF), w)
    | openFile name =>
        match w_fs w !! name with
        | None => (Err (Errno EBADF), w)
        | Some fl =>
            match f_xattr fl !! attr with
            | None => (Err (Errno ENODATA), w)
            | Some v =>
                if Z.leb (Z.of_nat (String.length v)) size
                then (Ok v, w)
                else (Err (Errno ERANGE), w)
            end
        end
    end.

(** [os.Remove]; the program never looks at its result. *)
Definition os_Remove (name : string) : World -> World :=
  fun w => emit (EvRemove name) (set_fs (delete name (w_fs w)) w).

(** The first candidate name that is not taken (O_EXCL). *)
Fixpoint pick_name `{GoLib} (fs : gmap string file) (dir pattern : string)
    (cands : list string) : option (string * list string) :=
  match cands with
  | [] => None
  | r :: rest =>
      let p := filepath_Join dir (pattern +:+ r) in
      match fs !! p with
      | None => Some (p, rest)
      | Some _ => pick_name fs dir pattern rest
      end
  end.

(** [os.CreateTemp(dir, pattern)]: a new empty file, mode 0o600. *)
Definition os_CreateTemp `{GoLib} (h : Host) (s : site) (dir pattern : string) : M File :=
  check h s ;;;
  fun w =>
    match pick_name (w_fs w) dir pattern (w_rand w) with
    | None =>
        (Err (PathError "open" (filepath_Join dir pattern) (Errno EEXIST)),
         set_rand [] w)
    | Some (p, rest) =>
        (Ok (openFile p),
         emit (EvCreate p)
           (set_rand rest (set_fs (<[p := mkFile Empty 384 ∅]> (w_fs w)) w)))
    end.

Definition with_file (f : File) (g : file -> file) : World -> World :=
  fun w => set_fs (alter g (File_Name f) (w_fs w)) w.

(** [syscall.Ftruncate(fd, size)] *)
Definition syscall_Ftruncate (h : Host) (s : site) (f : File) (size : Z) : M unit :=
  check h s ;;;
  effect (with_file f (fun fl => mkFile (Zeros size) (f_mode fl) (f_xattr fl))).

(** [io.Copy(f, strings.NewReader(text))] *)
Definition io_Copy (h : Host) (s : site) (f : File) (text : string) : M unit :=
  check h s ;;;
  effect (with_file f (fun fl => mkFile (Bytes text) (f_mode fl) (f_xattr fl))).

(** [File.Chmod] *)
Definition File_Chmod (h : Host) (s : site) (f : File) (mode : Z) : M unit :=
  check h s ;;;
  effect (with_file f (fun fl => mkFile (f_data fl) mode (f_xattr fl))).

(** [unix.Fsetxattr(fd, attr, value, 0)] *)
Definition unix_Fsetxattr (h : Host) (s : site) (f : File) (attr value : string) : M unit :=
  check h s ;;;
  effect (fun w =>
    emit (EvFsetxattr (File_Name f) attr value)
      (with_file f
         (fun fl => mkFile (f_data fl) (f_mode fl) (<[attr := value]> (f_xattr fl))) w)).

(** [os.Rename]: atomically replaces [newpath]. *)
Definition os_Rename (h : Host) (s : site) (oldpath newpath : string) : M unit :=
  check h s ;;;
  fun w =>
    match w_fs w !! oldpath with
    | None => (Err (PathError "rename" oldpath (Errno ENOENT)), w)
    | Some fl =>
        (Ok tt,
         emit (EvRename oldpath newpath)
           (set_fs (<[newpath := fl]> (delete oldpath (w_fs w))) w))
    end.

(** [exec.Cmd.Run]: start the program and wait for it.  What the
    program does to the file system is given by [behaviour], applied to
    whether it succeeded. *)
Definition Cmd_Run (h : Host) (s : site) (argv : list string)
    (behaviour : bool -> World -> World) : M unit :=
  fun w =>
    let w1 := emit (EvExec argv) w in
    match fault h s with
    | Some e => (Err e, behaviour false w1)
    | None => (Ok tt, behaviour true w1)
    end.

Definition no_behaviour : bool -> World -> World := fun _ w => w.

(** [fmt.Errorf("context: %w", err)] around a failing call. *)
Definition wrap {A} (context : string) (m : M A) : M A :=
  fun w =>
    match m w with
    | (Ok a, w') => (Ok a, w')
    | (Err e, w') => (Err (Wrapf context e), w')
    end.

(** [strings.ReplaceAll(s, old, new)] for a non-empty [old]: leftmost,
    non-overlapping occurrences; [skip] counts the bytes of a match still
    to be dropped. *)
Fixpoint replace_from (old new s : string) (skip : nat) : string :=
  match s with
  | EmptyString => EmptyString
  | String c rest =>
      match skip with
      | S k => replace_from old new rest k
      | O =>
          if String.prefix old s
          then new +:+ replace_from old new rest (Nat.pred (String.length old))
          else String c (replace_from old new rest O)
      end
  end.

(** With an empty [old], Go inserts [new] before every character and at
    the end (at rune boundaries; byte boundaries here). *)
Fixpoint insert_between (new s : string) : string :=
  match s with
  | EmptyString => new
  | String c rest => new +:+ String c (insert_between new rest)
  end.

Definition strings_ReplaceAll (s old new : string) : string :=
  match old with
  | EmptyString => insert_between new s
  | _ => replace_from old new s O
  end.

End Sys.
Export Sys.

(** ** pkg/machine: the provider interface *)

Module Machine.

(** machine.ListResponse *)
Record ListResponse := mkListResponse {
  lr_Name : string;
  lr_CreatedAt : Z;
  lr_LastUp : Z;
  lr_Running : bool;
  lr_Starting : bool;
  lr_Stream : string;
  lr_VMType : string;
  lr_CPUs : Z;
  lr_Memory : Z;
  lr_DiskSize : Z;
  lr_Port : Z;
  lr_RemoteUsername : string;
  lr_IdentityPath : string
}.

(** machine.VirtProvider, the methods this development follows. *)
Record VirtProvider := mkVirtProvider {
  List : M (list ListResponse);
  SpawnTransient : SpawnTransientOpts -> M unit;
  RemoveAndCleanMachines : M unit
}.

Definition ErrNotImplemented : error := ErrorString "functionality not implemented".

End Machine.
Export Machine.

(** ** cmd/podman/machine/bootc/vmrun.go *)

Module Bootc.

Definition dq : string := String "034"%char EmptyString.
Definition nl : string := String "010"%char EmptyString.

(* TODO get this from the container *)
Definition diskSize : Z := 10 * 1024 * 1024 * 1024.

(* vmrunCacheDir is placed under the machine dir *)
Definition vmrunCacheDir : string := "bootc-vmrun".

(* imageMetaXattr holds serialized diskFromContainerMeta *)
Definition imageMetaXattr : string := "user.bootc.meta".

(* loopWrapperEntrypoint sets up a loopback device *)
Definition loopWrapperEntrypoint : string :=
"#!/bin/bash
set -euo pipefail
disk=$1
shift
set -x
dev=$(losetup --show -P -f " +:+ dq +:+ "$disk" +:+ dq +:+ ")
# TODO consider just adding to-disk --with-loopback
rc=0
# FIXME detect console from the environment and OS...see also
# https://github.com/coreos/fedora-coreos-config/pull/2785
# https://github.com/coreos/fedora-coreos-config/blob/8d5c7cd1bbc82d6af7af1b64571d2317eeab9347/platforms.yaml
set +e
bootc install to-disk --karg console=hvc0 --karg console=ttyS0,114800n8 --karg console=tty0 \
  --skip-fetch-check --generic-image --via-loopback $1
rc=$?
losetup -d /dev/loop0
exit $rc
".

(** The part of *cobra.Command the program reads: the root's
    [--connection] flag. *)
Record cobra_Command := mkCommand {
  connectionFlag : string
}.

Record vmRunCtx := mkCtx {
  cmd : cobra_Command;
  cachedir : string
}.

Record optionsData := mkOptions {
  bootcLogLevel : string;
  vmDebug : bool
}.

Definition podmanRecurse (cmd : cobra_Command) (args : list string) : list string :=
  let connection := connectionFlag cmd in
  let fullArgs := ["--connection=" +:+ connection] in
  let fullArgs := fullArgs ++ args in
  "podman" :: fullArgs.

Definition podmanRecurseRun (h : Host) (s : site) (cmd : cobra_Command)
    (args : list string) (behaviour : bool -> World -> World) : M unit :=
  let c := podmanRecurse cmd args in
  Cmd_Run h s c behaviour.

(** What the privileged container does to the disk bind-mounted at /disk. *)
Definition installer (disk : File) (image : string) : bool -> World -> World :=
  fun ok =>
    with_file disk
      (fun fl =>
         mkFile (if ok then Installed image else Partial image)
                (f_mode fl) (f_xattr fl)).

Definition createDiskImage `{GoLib} (h : Host) (options : optionsData)
    (ctx : vmRunCtx) (imageName imageDigest targetDisk : string) : M string :=
  temporaryDisk <- os_CreateTemp h CreateTempDisk (cachedir ctx) "podman-bootc-tempdisk" ;;
  syscall_Ftruncate h FtruncateDisk temporaryDisk diskSize ;;;
  (* doCleanupDisk := true; defer func() { if doCleanupDisk { os.Remove(...) } }():
     the body yields the flag as it stands at the return, and the result *)
  out <- (
    re <- try (os_CreateTemp h CreateTempEntrypoint (cachedir ctx) "entrypoint") ;;
    match re with
    | Err err => ret (true, Err err)
    | Ok temporaryEntrypoint =>
        defer (os_Remove (File_Name temporaryEntrypoint)) (
          ra <- try (
            io_Copy h CopyEntrypoint temporaryEntrypoint loopWrapperEntrypoint ;;;
            File_Chmod h ChmodEntrypoint temporaryEntrypoint 493 ;;;
            log Info "Generating disk image" None ;;;
            let genDiskArgs := ["run"; "--privileged"; "--pid=host"; "--rm"; "-i";
                                "--security-opt=label=type:unconfined_t"] in
            let genDiskArgs :=
              if negb (String.eqb (bootcLogLevel options) "")
              then genDiskArgs ++ ["--env=RUST_LOG=" +:+ bootcLogLevel options]
              else genDiskArgs in
            let tempDiskInContainer := "/disk" in
            let tempEntrypointInContainer := "/entrypoint" in
            let genDiskArgs := genDiskArgs ++
              ["-v"; File_Name temporaryDisk +:+ ":" +:+ tempDiskInContainer] in
            let genDiskArgs := genDiskArgs ++
              ["-v"; File_Name temporaryEntrypoint +:+ ":" +:+ tempEntrypointInContainer] in
            let genDiskArgs := genDiskArgs ++ [imageName] in
            let genDiskArgs := genDiskArgs ++
              ["/bin/bash"; tempEntrypointInContainer; tempDiskInContainer] in
            log Info "Executing podman %s" None ;;;
            wrap "failed to run container to generate temporary disk"
              (podmanRecurseRun h PodmanRunInstall (cmd ctx) genDiskArgs
                 (installer temporaryDisk imageName))) ;;
          match ra with
          | Err err => ret (true, Err err)
          | Ok _ =>
              (* doCleanupDisk = false *)
              rb <- try (
                let serializedMeta := mkMeta imageDigest in
                buf <- lift (json_Marshal serializedMeta) ;;
                wrap "failed to set xattr"
                  (unix_Fsetxattr h FsetxattrMeta temporaryDisk imageMetaXattr buf) ;;;
                wrap ("failed to rename to " +:+ targetDisk)
                  (os_Rename h RenameDisk (File_Name temporaryDisk) targetDisk) ;;;
                ret targetDisk) ;;
              ret (false, rb)
          end)
    end) ;;
  (if (fst out : bool) then effect (os_Remove (File_Name temporaryDisk)) else ret tt) ;;;
  lift (snd out).

(** Lines 179-180: the cache file of an image. *)
Definition diskPathOf `{GoLib} (ctx : vmRunCtx) (imageName : string) : string :=
  let diskImageName := strings_ReplaceAll imageName "/" "_" in
  filepath_Join (cachedir ctx) diskImageName.

Definition getOrCreateDiskImage `{GoLib} (h : Host) (options : optionsData)
    (ctx : vmRunCtx) (imageName imageDigest : string) : M string :=
  let diskPath := diskPathOf ctx imageName in
  ro <- try (os_Open diskPath) ;;
  f <- match ro with
       | Err err =>
           if negb (errors_Is err os_ErrNotExist)
           then fail err
           else ret nilFile
       | Ok f => ret f
       end ;;
  (* defer f.Close(): no effect on the world modelled here *)
  rx <- try (unix_Fgetxattr f imageMetaXattr 4096) ;;
  match rx with
  | Err _ =>
      (* If there's no xattr, just remove it *)
      effect (os_Remove diskPath) ;;;
      createDiskImage h options ctx imageName imageDigest diskPath
  | Ok bufTrimmed =>
      match json_Unmarshal bufTrimmed with
      | Err err =>
          log Warn "failed to parse serialized meta from %s (%v) %v" (Some err) ;;;
          createDiskImage h options ctx imageName imageDigest diskPath
      | Ok serializedMeta =>
          log Debug "previous disk digest: %s current digest: %s" None ;;;
          if String.eqb (ImageDigest serializedMeta) imageDigest
          then ret diskPath
          else createDiskImage h options ctx imageName imageDigest diskPath
      end
  end.

(** What [cp -fc disk clone] does when it succeeds. *)
Definition cp_clone (disk clone : string) : bool -> World -> World :=
  fun ok w =>
    if ok then
      match w_fs w !! disk with
      | Some fl => set_fs (<[clone := fl]> (w_fs w)) w
      | None => w
      end
    else w.

Definition vmrun `{GoLib} (h : Host) (options : optionsData)
    (provider : VirtProvider) (cmd : cobra_Command) (args : list string) : M unit :=
  (* machine unsets the root pre-run; we want to re-enable it *)
  check h PersistentPreRunE ;;;
  check h GetGlobalDataDir ;;;
  let datadir := globalDataDir h in
  let vmcachedir := filepath_Join datadir vmrunCacheDir in
  check h MkdirAllCache ;;;
  effect (emit (EvMkdirAll vmcachedir)) ;;;
  let ctx := mkCtx cmd vmcachedir in
  match args with
  | [] => fail (ErrorString "index out of range [0] with length 0")
  | imageName :: _ =>
      (* Run an inspect to see if the image is present, otherwise pull. *)
      let c := podmanRecurse cmd ["image"; "inspect"; "-f"; "{{.Digest}}"; imageName] in
      ri <- try (Cmd_Run h InspectProbe c no_behaviour) ;;
      match ri with
      | Err err =>
          log Debug "Inspect failed: %v" (Some err) ;;;
          podmanRecurseRun h PodmanPull cmd ["pull"; imageName] no_behaviour
      | Ok _ => ret tt
      end ;;;
      let c := podmanRecurse cmd ["image"; "inspect"; "-f"; "{{.Digest}}"; imageName] in
      wrap ("failed to inspect " +:+ imageName)
        (Cmd_Run h InspectDigest c no_behaviour) ;;;
      let digest := strings_TrimSpace (inspect_stdout h) in
      disk <- getOrCreateDiskImage h options ctx imageName digest ;;
      effect (emit (EvStdout ("generated " +:+ disk +:+ nl))) ;;;
      (* Create a cloned copy of the disk *)
      let diskdir := filepath_Dir disk in
      tempf <- os_CreateTemp h CreateTempClone diskdir "bootc-vmrun" ;;
      defer (os_Remove (File_Name tempf)) (
        (* tempf.Close() *)
        Cmd_Run h CpClone ["cp"; "-fc"; disk; File_Name tempf]
          (cp_clone disk (File_Name tempf)) ;;;
        check h ProviderGet ;;;
        let vmprovider := provider in
        let spawnopts := {|
          Cpus := 2;
          MemoryMiB := 2048;
          Disk := disk;
          Gui := true;
          VMDebug := vmDebug options
        |} in
        effect (emit (EvSpawnTransient spawnopts)) ;;;
        SpawnTransient vmprovider spawnopts)
  end.

End Bootc.
Export Bootc.

(** ** The vfkit configuration library (github.com/crc-org/vfkit/pkg/config) *)

Module VfConfig.

Definition NewVirtualMachine (vcpus memory : Z) (bootloader : Bootloader) : VirtualMachine :=
  mkVirtualMachine vcpus memory bootloader [].

Definition VirtioRngNew (h : Host) : M VirtioDevice :=
  check h AtVirtioRngNew ;;; ret VirtioRng.

Definition VirtioBlkNew (h : Host) (imagePath : string) : M VirtioDevice :=
  check h AtVirtioBlkNew ;;; ret (VirtioBlk imagePath).

Definition VirtioSerialNew (h : Host) (logPath : string) : M VirtioDevice :=
  check h AtVirtioSerialNew ;;; ret (VirtioSerialFile logPath).

Definition VirtioSerialNewStdio (h : Host) : M VirtioDevice :=
  check h AtVirtioSerialNewStdio ;;; ret VirtioSerialStdio.

Definition VirtioVsockNew (h : Host) (port : Z) (socketURL : string) (listen : bool)
    : M VirtioDevice :=
  check h AtVirtioVsockNew ;;; ret (VirtioVsock port socketURL listen).

Definition VirtioGPUNew (h : Host) : M VirtioDevice :=
  check h AtVirtioGPUNew ;;; ret VirtioGPU.

Definition VirtioInputNew (h : Host) (kind : VirtioInputKind) : M VirtioDevice :=
  check h (match kind with
           | VirtioInputPointingDevice => AtVirtioInputNewPointing
           | VirtioInputKeyboardDevice => AtVirtioInputNewKeyboard
           end) ;;;
  ret (VirtioInput kind).

Definition decimal (n : Z) : string :=
  DecimalString.NilZero.string_of_int (Z.to_int n).

(** The [--device] argument of one device. *)
Definition device_args (d : VirtioDevice) : list string :=
  match d with
  | VirtioRng => ["--device"; "virtio-rng"]
  | VirtioBlk p => ["--device"; "virtio-blk,path=" +:+ p]
  | VirtioSerialFile p => ["--device"; "virtio-serial,logFilePath=" +:+ p]
  | VirtioSerialStdio => ["--device"; "virtio-serial,stdio"]
  | VirtioVsock port url listen =>
      ["--device"; "virtio-vsock,port=" +:+ decimal port +:+ ",socketURL=" +:+ url
                   +:+ (if listen then ",listen" else ",connect")]
  | VirtioGPU => ["--device"; "virtio-gpu,width=800,height=600"]
  | VirtioInput VirtioInputPointingDevice => ["--device"; "virtio-input,pointing"]
  | VirtioInput VirtioInputKeyboardDevice => ["--device"; "virtio-input,keyboard"]
  end.

(** [VirtualMachine.ToCmdLine]: the devices one after the other, in the
    order of the list. *)
Definition ToCmdLine (vm : VirtualMachine) : list string :=
  ["--cpus"; decimal (Vcpus vm); "--memory"; decimal (Memory vm);
   "--bootloader";
   "efi,variable-store=" +:+ efiVariableStorePath (VMBootloader vm)
     +:+ (if createVariableStore (VMBootloader vm) then ",create" else "")]
  ++ concat (map device_args (Devices vm)).

(** [VirtualMachine.Cmd(vfkitPath)]: the command line of the hypervisor. *)
Definition Cmd (h : Host) (vm : VirtualMachine) (vfkitPath : string) : M (list string) :=
  effect (emit (EvVfkitCmd vfkitPath vm)) ;;;
  check h VmconfigCmd ;;;
  ret (vfkitPath :: ToCmdLine vm).

End VfConfig.

(** ** pkg/machine/applehv *)

Module AppleHV.
Import VfConfig.

(* getBasicDevices returns a list of basic devices that we want to have in every VM. *)
Definition getBasicDevices (h : Host) : M (list VirtioDevice) :=
  let devices := [] in
  rng <- VirtioRngNew h ;;
  let devices := devices ++ [rng] in
  ret devices.

(* getDefaultDevices sets up the default devices. *)
Definition getDefaultDevices (h : Host) (imagePath logPath readyPath : string)
    : M (list VirtioDevice) :=
  devices <- getBasicDevices h ;;
  disk <- VirtioBlkNew h imagePath ;;
  serial <- VirtioSerialNew h logPath ;;
  readyDevice <- VirtioVsockNew h 1025 readyPath true ;;
  let devices := devices ++ [disk; serial; readyDevice] in
  ret devices.

Definition getDebugDevices (h : Host) : M (list VirtioDevice) :=
  let devices := [] in
  gpu <- VirtioGPUNew h ;;
  mouse <- VirtioInputNew h VirtioInputPointingDevice ;;
  kb <- VirtioInputNew h VirtioInputKeyboardDevice ;;
  ret (devices ++ [gpu; mouse; kb]).

Definition getIgnitionVsockDevice (h : Host) (path : string) : M VirtioDevice :=
  VirtioVsockNew h 1024 path true.

Definition uint64 (n : Z) : Z := n mod 2 ^ 64.

(** [os.MkdirTemp(dir, pattern)]; an empty [dir] is the host's temporary
    directory. *)
Definition os_MkdirTemp `{GoLib} (h : Host) (s : site) (dir pattern : string) : M string :=
  check h s ;;;
  fun w =>
    match w_rand w with
    | [] => (Err (PathError "mkdir" pattern (Errno EEXIST)), w)
    | r :: rest =>
        let d := if String.eqb dir "" then tempDir h else dir in
        (Ok (filepath_Join d (pattern +:+ r)), set_rand rest w)
    end.

Definition os_MkdirAll (h : Host) (s : site) (path : string) : M unit :=
  check h s ;;;
  effect (emit (EvMkdirAll path)).

Definition os_RemoveAll (path : string) : World -> World :=
  emit (EvRemoveAll path).

Definition SpawnTransient `{GoLib} (h : Host) (opts : SpawnTransientOpts) : M unit :=
  check h ConfigDefault ;;;
  tempdir <- os_MkdirTemp h MkdirTemp "" "podman-machine-applehv-" ;;
  defer (os_RemoveAll tempdir) (
    let efidir := filepath_Join tempdir "efi" in
    os_MkdirAll h MkdirAllEfi efidir ;;;
    check h FindHelperBinary ;;;
    let vfkitPath := vfkitHelper h in
    let bl := NewEFIBootloader (filepath_Join efidir "applehv-transient") true in
    let vmconfig := NewVirtualMachine (uint64 (Cpus opts)) (uint64 (MemoryMiB opts)) bl in
    devices <- getBasicDevices h ;;
    diskDevice <- VirtioBlkNew h (Disk opts) ;;
    let devices := devices ++ [diskDevice] in
    let vmconfig := mkVirtualMachine (Vcpus vmconfig) (Memory vmconfig)
                      (VMBootloader vmconfig) (Devices vmconfig ++ devices) in
    vmconfig <- (if Gui opts then
                   debugdevs <- getDebugDevices h ;;
                   ret (mkVirtualMachine (Vcpus vmconfig) (Memory vmconfig)
                          (VMBootloader vmconfig) (Devices vmconfig ++ debugdevs))
                 else
                   serial <- VirtioSerialNewStdio h ;;
                   ret (mkVirtualMachine (Vcpus vmconfig) (Memory vmconfig)
                          (VMBootloader vmconfig) (Devices vmconfig ++ [serial]))) ;;
    cmdArgs <- Cmd h vmconfig vfkitPath ;;
    (* Disable HTTP API *)
    let cmdArgs := cmdArgs ++ ["--restful-uri=none://"] in
    let cmdArgs := if Gui opts then cmdArgs ++ ["--gui"] else cmdArgs in
    (* cmd.Stdout, cmd.Stdin, cmd.Stderr: those of this process *)
    let cmdArgs := if VMDebug opts then cmdArgs ++ ["--log-level"; "debug"] else cmdArgs in
    log Debug "Spawning vfkit: %v" None ;;;
    r <- try (Cmd_Run h VfkitRun cmdArgs no_behaviour) ;;
    match r with
    | Err err => log Info "vfkit exited with error: %v" (Some err)
    | Ok _ => ret tt
    end ;;;
    ret tt).

(** [filepath.Ext]: from the last dot of the last path element. *)
Fixpoint Ext_from (s cur : string) : string :=
  match s with
  | EmptyString => cur
  | String c rest =>
      if Ascii.eqb c "."%char then Ext_from rest s
      else if Ascii.eqb c "/"%char then Ext_from rest ""
      else Ext_from rest cur
  end.

Definition filepath_Ext (path : string) : string := Ext_from path "".

(** The callback of filepath.WalkDir, folded over the entries visited. *)
Fixpoint walk (entries : list walkEntry) (jsonFiles : list string) : Res (list string) :=
  match entries with
  | [] => Ok jsonFiles
  | d :: rest =>
      match we_err d with
      | Some e => Err e
      | None =>
          if String.eqb (filepath_Ext (we_name d)) ".json"
          then walk rest (jsonFiles ++ [we_input d])
          else walk rest jsonFiles
      end
  end.

Fixpoint loadAll (h : Host) (jsonFiles : list string) (mms : list MacMachine)
    : Res (list MacMachine) :=
  match jsonFiles with
  | [] => Ok mms
  | jsonFile :: rest =>
      match loadMacMachineFromJSON h jsonFile with
      | Err err => Err err
      | Ok mm => loadAll h rest (mms ++ [mm])
      end
  end.

Definition loadFromLocalJson (h : Host) : M (list MacMachine) :=
  check h GetConfDir ;;;
  jsonFiles <- lift (walk (confDirWalk h) []) ;;
  lift (loadAll h jsonFiles []).

Definition MiB : Z := 1048576.
Definition GiB : Z := 1073741824.

Definition status_eqb (a b : Status) : bool :=
  match a, b with
  | Running, Running | Stopped, Stopped | Starting, Starting | Unknown, Unknown => true
  | _, _ => false
  end.

(** The body of the loop of List, for one machine. *)
Definition listOne (h : Host) (mm : MacMachine) : Res ListResponse :=
  let probe := vfkitState h (mm_Endpoint mm) in
  let state :=
    match probe with
    | Ok vmState => Ok vmState
    | Err err =>
        if errors_Is err (Errno ECONNREFUSED)
        then Ok Stopped
        else Err err
    end in
  match state with
  | Err err => Err err
  | Ok vmState =>
      Ok {| lr_Name := mm_Name mm;
            lr_CreatedAt := mm_Created mm;
            lr_LastUp := mm_LastUp mm;
            lr_Running := status_eqb vmState Running;
            lr_Starting := status_eqb vmState Starting;
            lr_Stream := mm_ImageStream mm;
            lr_VMType := "applehv";
            lr_CPUs := mm_CPUs mm;
            lr_Memory := uint64 (mm_Memory mm * MiB);
            lr_DiskSize := uint64 (mm_DiskSize mm * GiB);
            lr_Port := mm_Port mm;
            lr_RemoteUsername := mm_RemoteUsername mm;
            lr_IdentityPath := mm_IdentityPath mm |}
  end.

Fixpoint listLoop (h : Host) (mms : list MacMachine) (response : list ListResponse)
    : Res (list ListResponse) :=
  match mms with
  | [] => Ok response
  | mm :: rest =>
      match listOne h mm with
      | Err err => Err err
      | Ok mlr => listLoop h rest (response ++ [mlr])
      end
  end.

Definition List (h : Host) : M (list ListResponse) :=
  mms <- loadFromLocalJson h ;;
  lift (listLoop h mms []).

Definition RemoveAndCleanMachines : M unit :=
  (* This can be implemented when host networking is completed. *)
  fail ErrNotImplemented.

Definition VirtualizationProvider `{GoLib} (h : Host) : VirtProvider :=
  mkVirtProvider (List h) (SpawnTransient h) RemoveAndCleanMachines.

End AppleHV.

(** ** A reference instance of the library interface

    Used to run the program on concrete inputs.  It agrees with Go on
    clean slash-separated paths, on ASCII white space, and on metadata
    records whose digest consists of printable ASCII characters that the
    JSON encoder writes unescaped; the decoder accepts exactly what the
    encoder writes and rejects everything else (Go's decoder also reads
    other spellings of the same record). *)

Module Ref.

Definition Join (dir name : string) : string :=
  if String.eqb dir "" then name
  else if String.eqb name "" then dir
  else dir +:+ "/" +:+ name.

(** Up to, and without, the last slash. *)
Fixpoint Dir_from (s : string) : option string :=
  match s with
  | EmptyString => None
  | String c rest =>
      match Dir_from rest with
      | Some d => Some (String c d)
      | None => if Ascii.eqb c "/"%char then Some EmptyString else None
      end
  end.

Definition Dir (path : string) : string :=
  match Dir_from path with
  | None => "."
  | Some EmptyString => "/"
  | Some d => d
  end.

Definition is_space (c : ascii) : bool :=
  let n := nat_of_ascii c in
  Nat.eqb n 32 || (Nat.leb 9 n && Nat.leb n 13).

Fixpoint trim_left (s : string) : string :=
  match s with
  | EmptyString => EmptyString
  | String c rest => if is_space c then trim_left rest else s
  end.

Fixpoint trim_right (s : string) : string :=
  match s with
  | EmptyString => EmptyString
  | String c rest =>
      match trim_right rest with
      | EmptyString => if is_space c then EmptyString else String c EmptyString
      | r => String c r
      end
  end.

Definition TrimSpace (s : string) : string := trim_right (trim_left s).

(** Characters the encoder copies as they are. *)
Definition plain (c : ascii) : bool :=
  let n := nat_of_ascii c in
  Nat.leb 32 n && Nat.leb n 126
  && negb (Nat.eqb n 34) && negb (Nat.eqb n 92)
  && negb (Nat.eqb n 60) && negb (Nat.eqb n 62) && negb (Nat.eqb n 38).

Fixpoint all_plain (s : string) : bool :=
  match s with
  | EmptyString => true
  | String c rest => plain c && all_plain rest
  end.

Definition meta_open : string := "{" +:+ dq +:+ "imageDigest" +:+ dq +:+ ":" +:+ dq.
Definition meta_close : string := dq +:+ "}".

Definition Marshal (m : diskFromContainerMeta) : Res string :=
  if all_plain (ImageDigest m)
  then Ok (meta_open +:+ ImageDigest m +:+ meta_close)
  else Err (ErrorString "json: digest outside the reference encoder").

Definition Unmarshal (data : string) : Res diskFromContainerMeta :=
  let n := String.length data in
  let no := String.length meta_open in
  let nc := String.length meta_close in
  if Nat.leb (no + nc) n
     && String.eqb (String.substring 0 no data) meta_open
     && String.eqb (String.substring (n - nc) nc data) meta_close
     && all_plain (String.substring no (n - no - nc) data)
  then Ok (mkMeta (String.substring no (n - no - nc) data))
  else Err (ErrorString "json: cannot unmarshal").

#[export] Instance refLib : GoLib := {|
  filepath_Join := Join;
  filepath_Dir := Dir;
  strings_TrimSpace := TrimSpace;
  json_Marshal := Marshal;
  json_Unmarshal := Unmarshal
|}.

(** Faults: none at all ... *)
Definition quiet : site -> option error := fun _ => None.

Definition site_eqb (a b : site) : bool :=
  match a, b with
  | CreateTempDisk, CreateTempDisk | FtruncateDisk, FtruncateDisk
  | CreateTempEntrypoint, CreateTempEntrypoint | CopyEntrypoint, CopyEntrypoint
  | ChmodEntrypoint, ChmodEntrypoint | PodmanRunInstall, PodmanRunInstall
  | FsetxattrMeta, FsetxattrMeta | RenameDisk, RenameDisk
  | PersistentPreRunE, PersistentPreRunE | GetGlobalDataDir, GetGlobalDataDir
  | MkdirAllCache, MkdirAllCache | InspectProbe, InspectProbe
  | PodmanPull, PodmanPull | InspectDigest, InspectDigest
  | CreateTempClone, CreateTempClone | CpClone, CpClone | ProviderGet, ProviderGet
  | ConfigDefault, ConfigDefault | MkdirTemp, MkdirTemp | MkdirAllEfi, MkdirAllEfi
  | FindHelperBinary, FindHelperBinary | AtVirtioRngNew, AtVirtioRngNew
  | AtVirtioBlkNew, AtVirtioBlkNew | AtVirtioGPUNew, AtVirtioGPUNew
  | AtVirtioInputNewPointing, AtVirtioInputNewPointing
  | AtVirtioInputNewKeyboard, AtVirtioInputNewKeyboard
  | AtVirtioSerialNewStdio, AtVirtioSerialNewStdio
  | AtVirtioSerialNew, AtVirtioSerialNew | AtVirtioVsockNew, AtVirtioVsockNew
  | VmconfigCmd, VmconfigCmd | VfkitRun, VfkitRun | GetConfDir, GetConfDir => true
  | _, _ => false
  end.

(** ... or exactly the call at [s] failing with [e]. *)
Definition failing (s : site) (e : error) : site -> option error :=
  fun s' => if site_eqb s s' then Some e else None.

Definition host (faults : site -> option error) : Host := {|
  fault := faults;
  inspect_stdout := "sha256:aaa
";
  globalDataDir := "/data";
  tempDir := "/tmp";
  vfkitHelper := "/opt/podman/bin/vfkit";
  confDir := "/conf/applehv";
  confDirWalk := [];
  loadMacMachineFromJSON := fun _ => Err (Errno ENOENT);
  vfkitState := fun _ => Err (Errno ECONNREFUSED)
|}.

Definition ctx : vmRunCtx := mkCtx (mkCommand "") "/data/bootc-vmrun".

Definition noOptions : optionsData := mkOptions "" false.

Definition image : string := "example.com/os:latest".
Definition digest : string := "sha256:aaa".
Definition target : string := "/data/bootc-vmrun/example.com_os:latest".
Definition tempdisk1 : string := "/data/bootc-vmrun/podman-bootc-tempdisk1".
Definition entrypoint2 : string := "/data/bootc-vmrun/entrypoint2".

(** An empty cache. *)
Definition world0 : World := mkWorld ∅ ["1"; "2"; "3"; "4"] [].

(** The same cache entry, with permission bits that let nobody read it. *)
Definition locked (value : string) : World :=
  mkWorld
    {[ "/data/bootc-vmrun/example.com_os:latest" :=
         mkFile (Installed "example.com/os:latest") 0 {[ imageMetaXattr := value ]} ]}
    ["1"; "2"; "3"; "4"] [].

(** A digest of 4100 characters. *)
Definition long_digest : string := string_of_list_ascii (repeat "a"%char 4100).

(** A lookup in the cache on a host with the given faults. *)
Definition lookup (faults : site -> option error) (imageName imageDigest : string)
    (w : World) : Res string * World :=
  getOrCreateDiskImage (host faults) noOptions ctx imageName imageDigest w.

(** Options of a transient machine with a window, and without. *)
Definition gui_opts : SpawnTransientOpts := mkSpawnTransientOpts 2 2048 target true false.
Definition headless_opts : SpawnTransientOpts :=
  mkSpawnTransientOpts 2 2048 target false false.

(** A host with two persisted machines, [a] and [b], and a stray file. *)
Definition machine (name : string) : MacMachine :=
  mkMacMachine name 0 0 "testing" 2 2048 100 22 "core" "/id" name.

Definition fleet (probe : string -> Res Status) : Host := {|
  fault := quiet;
  inspect_stdout := "";
  globalDataDir := "/data";
  tempDir := "/tmp";
  vfkitHelper := "/opt/podman/bin/vfkit";
  confDir := "/conf/applehv";
  confDirWalk := [mkWalkEntry "/conf/applehv" "applehv" None;
                  mkWalkEntry "/conf/applehv/a.json" "a.json" None;
                  mkWalkEntry "/conf/applehv/b.json" "b.json" None;
                  mkWalkEntry "/conf/applehv/notes.txt" "notes.txt" None];
  loadMacMachineFromJSON := fun path => Ok (machine path);
  vfkitState := probe
|}.

(** [a] refuses the connection (the error is wrapped), [b] runs. *)
Definition probe_refused (endpoint : string) : Res Status :=
  if String.eqb endpoint "/conf/applehv/a.json"
  then Err (Wrapf "Get http://localhost/vm/state" (Errno ECONNREFUSED))
  else Ok Running.

(** [a] refuses the connection, the probe of [b] times out. *)
Definition probe_timeout (endpoint : string) : Res Status :=
  if String.eqb endpoint "/conf/applehv/a.json"
  then Err (Errno ECONNREFUSED)
  else Err (Errno ETIMEDOUT).

(** The command on an empty cache, with the applehv provider. *)
Definition clone3 : string := "/data/bootc-vmrun/bootc-vmrun3".

Definition debugOptions : optionsData := mkOptions "debug" true.

Definition command (options : optionsData) : Res unit * World :=
  vmrun (host quiet) options (AppleHV.VirtualizationProvider (host quiet))
    (mkCommand "") [image] world0.

(** A build into the empty cache on a host with the given faults. *)
Definition build (faults : site -> option error) : Res string * World :=
  createDiskImage (host faults) noOptions ctx image digest target world0.

(** A cache holding a disk for [example.com/os:latest] whose metadata is
    the text [value]. *)
Definition cached (value : string) : World :=
  mkWorld
    {[ "/data/bootc-vmrun/example.com_os:latest" :=
         mkFile (Installed "example.com/os:latest") 384 {[ imageMetaXattr := value ]} ]}
    ["1"; "2"; "3"; "4"] [].

End Ref.

(** ** Observations used in the statements *)

Module Obs.

(** The interface calls to SpawnTransient recorded in a trace. *)
Fixpoint spawns (t : list event) : list SpawnTransientOpts :=
  match t with
  | [] => []
  | EvSpawnTransient opts :: rest => opts :: spawns rest
  | _ :: rest => spawns rest
  end.

(** The number of subprocesses run in a trace. *)
Fixpoint execs (t : list event) : nat :=
  match t with
  | [] => O
  | EvExec _ :: rest => S (execs rest)
  | _ :: rest => execs rest
  end.

(** A provider that does not itself call SpawnTransient again. *)
Definition silent (p : VirtProvider) : Prop :=
  forall opts w,
    spawns (w_trace (snd (SpawnTransient p opts w))) = spawns (w_trace w).

(** The cache file, if there is one, can be opened for reading. *)
Definition openable (fs : gmap string file) (path : string) : Prop :=
  forall fl, fs !! path = Some fl -> Z.testbit (f_mode fl) 8 = true.

(** The metadata cannot be read: there is no file, or the file has no
    metadata attribute, or the attribute does not fit the buffer. *)
Definition meta_unreadable (fs : gmap string file) (path : string) : Prop :=
  match fs !! path with
  | None => True
  | Some fl =>
      match f_xattr fl !! imageMetaXattr with
      | None => True
      | Some v => 4096 < Z.of_nat (String.length v)
      end
  end.

(** The metadata is read as [v], and decoding it fails with [e]. *)
Definition meta_unparseable `{GoLib} (fs : gmap string file) (path v : string)
    (e : error) : Prop :=
  exists fl, fs !! path = Some fl /\
             f_xattr fl !! imageMetaXattr = Some v /\
             Z.of_nat (String.length v) <= 4096 /\
             json_Unmarshal v = Err e.

(** The metadata is read, decoded, and names [digest]. *)
Definition meta_matches `{GoLib} (fs : gmap string file) (path digest : string) : Prop :=
  exists fl v m, fs !! path = Some fl /\
                 Z.testbit (f_mode fl) 8 = true /\
                 f_xattr fl !! imageMetaXattr = Some v /\
                 Z.of_nat (String.length v) <= 4096 /\
                 json_Unmarshal v = Ok m /\
                 ImageDigest m = digest.

(** The record written for [digest] can be read back: it fits the
    buffer and decodes to [digest]. *)
Definition reads_back `{GoLib} (digest : string) : Prop :=
  forall buf, json_Marshal (mkMeta digest) = Ok buf ->
    Z.of_nat (String.length buf) <= 4096 /\
    exists m, json_Unmarshal buf = Ok m /\ ImageDigest m = digest.

(** No candidate name of the temporary entrypoint is the cache file. *)
Definition entrypoint_apart `{GoLib} (ctx : vmRunCtx) (path : string)
    (rand : list string) : Prop :=
  forall r, In r rand -> filepath_Join (cachedir ctx) ("entrypoint" +:+ r) <> path.

(** [strings.ReplaceAll(s, "/", "_")], character by character. *)
Fixpoint slashes_to_underscores (s : string) : string :=
  match s with
  | EmptyString => EmptyString
  | String c rest =>
      String (if Ascii.eqb c "/"%char then "_"%char else c)
             (slashes_to_underscores rest)
  end.

(** The device lists of the two modes of a transient machine. *)
Definition gui_devices (disk : string) : list VirtioDevice :=
  [VirtioRng; VirtioBlk disk; VirtioGPU;
   VirtioInput VirtioInputPointingDevice; VirtioInput VirtioInputKeyboardDevice].

Definition headless_devices (disk : string) : list VirtioDevice :=
  [VirtioRng; VirtioBlk disk; VirtioSerialStdio].

Definition expected_devices (opts : SpawnTransientOpts) : list VirtioDevice :=
  if Gui opts then gui_devices (Disk opts) else headless_devices (Disk opts).

(** The probe of a machine succeeds or is refused. *)
Definition probe_tolerated (h : Host) (mm : MacMachine) : Prop :=
  forall e, vfkitState h (mm_Endpoint mm) = Err e ->
            errors_Is e (Errno ECONNREFUSED) = true.

(** The state List works with: the probed one, Stopped when refused. *)
Definition listed_state (h : Host) (mm : MacMachine) : Status :=
  match vfkitState h (mm_Endpoint mm) with
  | Ok vmState => vmState
  | Err _ => Stopped
  end.

End Obs.
Export Obs.

(** ** pkg/machine/applehv: checks on the persisted machines *)

Module AppleHVChecks.

(** The loop of CheckExclusiveActiveVM over the machines found. *)
Fixpoint firstActive (fsVms : list ListResponse) : bool * string :=
  match fsVms with
  | [] => (false, "")
  | vm :: rest =>
      if lr_Running vm || lr_Starting vm
      then (true, lr_Name vm)
      else firstActive rest
  end.

(** CheckExclusiveActiveVM, given what getVMInfos returns. *)
Definition CheckExclusiveActiveVM (getVMInfos : Res (list ListResponse))
    : Res (bool * string) :=
  match getVMInfos with
  | Err err => Err err
  | Ok fsVms => Ok (firstActive fsVms)
  end.

Definition IsValidVMName `{GoLib} (h : Host) (name : string) : M bool :=
  check h GetConfDir ;;;
  let configDir := confDir h in
  let fqName := filepath_Join configDir (name +:+ ".json") in
  match loadMacMachineFromJSON h fqName with
  | Err err => fail err
  | Ok _ => ret true
  end.

End AppleHVChecks.

(** ** Further observations *)

Module Obs2.

(** The error of the first of the call sites that fails. *)
Fixpoint first_fault (h : Host) (sites : list site) : option error :=
  match sites with
  | [] => None
  | s :: rest =>
      match fault h s with
      | Some e => Some e
      | None => first_fault h rest
      end
  end.

(** The entry of a directory walk names a machine configuration. *)
Definition is_json (d : walkEntry) : bool :=
  String.eqb (AppleHV.filepath_Ext (we_name d)) ".json".

(** The metadata is read and decoded, and names another digest. *)
Definition meta_stale `{GoLib} (fs : gmap string file) (path digest : string) : Prop :=
  exists fl v m, fs !! path = Some fl /\
                 Z.testbit (f_mode fl) 8 = true /\
                 f_xattr fl !! imageMetaXattr = Some v /\
                 Z.of_nat (String.length v) <= 4096 /\
                 json_Unmarshal v = Ok m /\
                 ImageDigest m <> digest.


(** A machine is active when it runs or starts. *)
Definition active (vm : ListResponse) : bool := lr_Running vm || lr_Starting vm.

(** The arguments after the command name that the build hands to the
    container engine, for the two temporary files it created. *)
Definition install_args (options : optionsData) (tmp entry imageName : string)
    : list string :=
  ["run"; "--privileged"; "--pid=host"; "--rm"; "-i";
   "--security-opt=label=type:unconfined_t"]
  ++ (if String.eqb (bootcLogLevel options) "" then []
      else ["--env=RUST_LOG=" +:+ bootcLogLevel options])
  ++ ["-v"; tmp +:+ ":" +:+ "/disk"; "-v"; entry +:+ ":" +:+ "/entrypoint";
      imageName; "/bin/bash"; "/entrypoint"; "/disk"].

(** The flags SpawnTransient adds after the machine configuration. *)
Definition transient_flags (opts : SpawnTransientOpts) : list string :=
  ["--restful-uri=none://"]
  ++ (if Gui opts then ["--gui"] else [])
  ++ (if VMDebug opts then ["--log-level"; "debug"] else []).

End Obs2.
Export Obs2.

(** ** Further concrete inputs *)

Module Ref2.

(** A cache entry built for another digest. *)
Definition outdated : World :=
  Ref.cached (Ref.meta_open +:+ "sha256:old" +:+ Ref.meta_close).

End Ref2.

(** * Properties *)

(** Closed statements run the program with the reference library. *)
#[local] Existing Instance Ref.refLib.

#[local] Arguments Z.testbit : simpl never.
#[local] Arguments Z.leb : simpl never.

(** ** Running the monad in proofs *)

Ltac run :=
  repeat (unfold bind, try, ret, fail, lift, effect, defer, check, wrap, log,
     os_CreateTemp, syscall_Ftruncate, io_Copy, File_Chmod, unix_Fsetxattr,
     os_Rename, podmanRecurseRun, Cmd_Run, installer, no_behaviour,
     with_file, set_fs, set_rand, emit, os_Remove, File_Name in *; simpl in *).

(** Split on the host's answer at call site [s]; the failing branch
    contradicts the successful run [H]. *)
Ltac on_fault H h s := destruct (fault h s) eqn:?; run; [discriminate H|].

Section FileSystem.
Context `{GoLib}.

Lemma pick_name_spec fs dir pat cands p rest :
  pick_name fs dir pat cands = Some (p, rest) ->
  fs !! p = None /\
  exists skipped r, cands = skipped ++ r :: rest /\ p = filepath_Join dir (pat +:+ r).
Proof.
  induction cands as [|r cands IH]; simpl; [discriminate|].
  destruct (fs !! filepath_Join dir (pat +:+ r)) eqn:E.
  - intros Hp. destruct (IH Hp) as (? & sk & r' & -> & ?). split; [done|].
    exists (r :: sk), r'. auto.
  - intros [= <- <-]. split; [done|]. exists [], r. auto.
Qed.

(** The file system after a publish: both temporary names were free
    before, so all that is left of the build is the file under the
    final name. *)
Lemma publish_fs (fs : gmap string file) tmp entry target T T0 E :
  fs !! tmp = None -> tmp <> entry ->
  delete entry (<[target := T]> (delete tmp (<[entry := E]> (<[tmp := T0]> fs))))
  = delete entry (<[target := T]> fs).
Proof.
  intros Htmp Hne. apply map_eq. intros k.
  destruct (decide (k = entry)) as [->|Hk1].
  { by rewrite !lookup_delete_eq. }
  rewrite !(lookup_delete_ne _ entry) by done.
  destruct (decide (k = target)) as [->|Hk2].
  { by rewrite !lookup_insert_eq. }
  rewrite !(lookup_insert_ne _ target) by done.
  destruct (decide (k = tmp)) as [->|Hk3].
  { by rewrite lookup_delete_eq. }
  rewrite lookup_delete_ne by done.
  by rewrite !lookup_insert_ne by done.
Qed.

(** What a successful build leaves behind. *)
Lemma createDiskImage_Ok h options ctx imageName imageDigest targetDisk w p w' :
  createDiskImage h options ctx imageName imageDigest targetDisk w = (Ok p, w') ->
  exists tmp entry buf argv,
    json_Marshal (mkMeta imageDigest) = Ok buf /\
    p = targetDisk /\
    w_fs w !! tmp = None /\ w_fs w !! entry = None /\ tmp <> entry /\
    (exists r, In r (w_rand w) /\
               entry = filepath_Join (cachedir ctx) ("entrypoint" +:+ r)) /\
    w_fs w' = delete entry
                (<[targetDisk := mkFile (Installed imageName) 384
                                   {[imageMetaXattr := buf]}]> (w_fs w)) /\
    w_trace w' = w_trace w ++
      [EvCreate tmp; EvCreate entry; EvLog Info "Generating disk image" None;
       EvLog Info "Executing podman %s" None; EvExec argv;
       EvFsetxattr tmp imageMetaXattr buf; EvRename tmp targetDisk; EvRemove entry].
Proof.
  destruct w as [fs rand trace].
  unfold createDiskImage. intros Hrun. run.
  on_fault Hrun h CreateTempDisk.
  destruct (pick_name fs _ _ rand) as [[tmp rand1]|] eqn:Htmp; run; [|discriminate Hrun].
  on_fault Hrun h FtruncateDisk.
  on_fault Hrun h CreateTempEntrypoint.
  destruct (pick_name (alter _ tmp _) _ _ rand1) as [[entry rand2]|] eqn:Hentry;
    run; [|discriminate Hrun].
  on_fault Hrun h CopyEntrypoint.
  on_fault Hrun h ChmodEntrypoint.
  on_fault Hrun h PodmanRunInstall.
  destruct (json_Marshal _) as [buf|] eqn:Hbuf; run; [|discriminate Hrun].
  on_fault Hrun h FsetxattrMeta.
  on_fault Hrun h RenameDisk.
  apply pick_name_spec in Htmp as (Htmp & sk1 & r1 & Hrand & _).
  apply pick_name_spec in Hentry as (Hentry & sk2 & r2 & Hrand1 & Hname).
  rewrite alter_insert_eq in Hentry.
  apply lookup_insert_None in Hentry as [Hentry Hne].
  repeat (rewrite alter_insert_eq in Hrun
          || rewrite (alter_insert_ne _ tmp entry) in Hrun by done).
  rewrite (lookup_insert_ne _ entry tmp) in Hrun by done.
  rewrite lookup_insert_eq in Hrun. run.
  injection Hrun as <- <-. simpl.
  eexists tmp, entry, buf, _.
  repeat split; try done.
  - exists r2. split; [|done]. subst rand rand1.
    apply in_or_app. right. right. apply in_or_app. right. left. done.
  - rewrite insert_empty. by apply publish_fs.
  - by rewrite <- !app_assoc.
Qed.

End FileSystem.

(** ** The build: metadata first, then the rename *)



(** ** The build: temporary files on the failing returns *)

(** C3 (the code at failing inputs).  When ftruncate, the write of the
    extended attribute, or the rename fails, the build returns an error
    and the temporary disk it created is still in the cache directory. *)
Theorem createDiskImage_leaves_tempdisk :
  let left_behind s :=
    let out := Ref.build (Ref.failing s (Errno EIO)) in
    (exists e, fst out = Err e) /\
    In (EvCreate Ref.tempdisk1) (w_trace (snd out)) /\
    ~ In (EvRemove Ref.tempdisk1) (w_trace (snd out)) /\
    is_Some (w_fs (snd out) !! Ref.tempdisk1) in
  left_behind FtruncateDisk /\ left_behind FsetxattrMeta /\ left_behind RenameDisk.
Proof.
  repeat split;
    try (eexists; vm_compute; reflexivity);
    try (vm_compute; tauto);
    try (vm_compute; intuition discriminate).
Qed.

(** ** The build: the returns that do clean up *)

(** Before the subprocess has succeeded the deferred cleanups do their
    work: when creating or preparing the entrypoint fails, or the
    subprocess itself, the cache directory is left as it was found. *)
Lemma createDiskImage_cleans_up_early_failures :
  let clean s :=
    let out := Ref.build (Ref.failing s (ExitError 1)) in
    (exists e, fst out = Err e) /\ w_fs (snd out) = w_fs Ref.world0 in
  clean CreateTempEntrypoint /\ clean CopyEntrypoint /\ clean ChmodEntrypoint /\
  clean PodmanRunInstall.
Proof.
  repeat split; try (eexists; vm_compute; reflexivity); vm_compute; reflexivity.
Qed.

(** ** Observations distribute over traces *)

Lemma execs_app t1 t2 : execs (t1 ++ t2) = (execs t1 + execs t2)%nat.
Proof.
  induction t1 as [|x t1 IH]; simpl; [done|].
  destruct x; simpl; rewrite ?IH; done.
Qed.

Lemma spawns_app t1 t2 : spawns (t1 ++ t2) = spawns t1 ++ spawns t2.
Proof.
  induction t1 as [|x t1 IH]; simpl; [done|].
  destruct x; simpl; rewrite ?IH; done.
Qed.

(** ** The cache lookup *)

Section Cache.
Context `{GoLib}.
Variables (h : Host) (options : optionsData) (ctx : vmRunCtx).
Variables (imageName imageDigest : string).

Local Abbreviation diskPath := (diskPathOf ctx imageName).

(** Unreadable metadata: remove whatever is there, then build. *)
Lemma getOrCreateDiskImage_unreadable w :
  openable (w_fs w) diskPath ->
  meta_unreadable (w_fs w) diskPath ->
  getOrCreateDiskImage h options ctx imageName imageDigest w
  = createDiskImage h options ctx imageName imageDigest diskPath (os_Remove diskPath w).
Proof.
  unfold openable, meta_unreadable, getOrCreateDiskImage, os_Open, unix_Fgetxattr.
  intros Hopen Hmeta. run.
  destruct (w_fs w !! diskPath) as [fl|] eqn:Hfl; run; [|reflexivity].
  rewrite (Hopen fl eq_refl). run. rewrite Hfl.
  destruct (f_xattr fl !! imageMetaXattr) as [v|]; [|reflexivity].
  apply Z.leb_gt in Hmeta. rewrite Hmeta. reflexivity.
Qed.

(** Unparseable metadata: warn, then build over the file. *)
Lemma getOrCreateDiskImage_unparseable w v e :
  openable (w_fs w) diskPath ->
  meta_unparseable (w_fs w) diskPath v e ->
  getOrCreateDiskImage h options ctx imageName imageDigest w
  = createDiskImage h options ctx imageName imageDigest diskPath
      (emit (EvLog Warn "failed to parse serialized meta from %s (%v) %v" (Some e)) w).
Proof.
  unfold openable, meta_unparseable, getOrCreateDiskImage, os_Open, unix_Fgetxattr.
  intros Hopen (fl & Hfl & Hv & Hlen & Hparse). run.
  rewrite Hfl, (Hopen fl Hfl). run. rewrite Hfl, Hv.
  apply Z.leb_le in Hlen. rewrite Hlen, Hparse. reflexivity.
Qed.

(** Matching metadata: the path, and nothing but a debug line. *)
Lemma getOrCreateDiskImage_hit w :
  meta_matches (w_fs w) diskPath imageDigest ->
  getOrCreateDiskImage h options ctx imageName imageDigest w
  = (Ok diskPath,
     emit (EvLog Debug "previous disk digest: %s current digest: %s" None) w).
Proof.
  unfold meta_matches, getOrCreateDiskImage, os_Open, unix_Fgetxattr.
  intros (fl & v & m & Hfl & Hmode & Hv & Hlen & Hparse & Hd). run.
  rewrite Hfl, Hmode. run. rewrite Hfl, Hv.
  apply Z.leb_le in Hlen. rewrite Hlen, Hparse, Hd, String.eqb_refl. reflexivity.
Qed.

(** A file that cannot be opened: the error of open, and no build. *)
Lemma getOrCreateDiskImage_unopenable w fl :
  w_fs w !! diskPath = Some fl ->
  Z.testbit (f_mode fl) 8 = false ->
  getOrCreateDiskImage h options ctx imageName imageDigest w
  = (Err (PathError "open" diskPath (Errno EACCES)), w).
Proof.
  unfold getOrCreateDiskImage, os_Open. intros Hfl Hmode. run.
  rewrite Hfl, Hmode. reflexivity.
Qed.

(** A successful call either found matching metadata or built. *)
Lemma getOrCreateDiskImage_Ok w p w' :
  getOrCreateDiskImage h options ctx imageName imageDigest w = (Ok p, w') ->
  (meta_matches (w_fs w) diskPath imageDigest /\ p = diskPath /\
   w' = emit (EvLog Debug "previous disk digest: %s current digest: %s" None) w)
  \/
  (exists w0,
     createDiskImage h options ctx imageName imageDigest diskPath w0 = (Ok p, w') /\
     w_rand w0 = w_rand w /\
     execs (w_trace w0) = execs (w_trace w) /\
     spawns (w_trace w0) = spawns (w_trace w)).
Proof.
  unfold getOrCreateDiskImage, os_Open, unix_Fgetxattr.
  destruct w as [fs rand trace]. run.
  assert (Hobs : forall ev t, execs [ev] = O -> spawns [ev] = [] ->
                   execs (t ++ [ev]) = execs t /\ spawns (t ++ [ev]) = spawns t).
  { intros ev t He Hs. rewrite execs_app, spawns_app, He, Hs, app_nil_r. split; [lia|done]. }
  destruct (fs !! diskPath) as [fl|] eqn:Hfl; run.
  - destruct (Z.testbit (f_mode fl) 8) eqn:Hmode; run;
      [|intros Hb; discriminate Hb].
    rewrite Hfl.
    destruct (f_xattr fl !! imageMetaXattr) as [v|] eqn:Hv; run.
    + destruct (Z.leb (Z.of_nat (String.length v)) 4096) eqn:Hlen; run.
      * destruct (json_Unmarshal v) as [m|e] eqn:Hparse; run.
        -- destruct (String.eqb (ImageDigest m) imageDigest) eqn:Hd; run.
           ++ intros [= <- <-]. left. split; [|done].
              exists fl, v, m. apply String.eqb_eq in Hd. apply Z.leb_le in Hlen.
              done.
           ++ intros Hb. right. eexists. split; [exact Hb|]. simpl.
              split; [done|]. by apply Hobs.
        -- intros Hb. right. eexists. split; [exact Hb|]. simpl.
           split; [done|]. by apply Hobs.
      * intros Hb. right. eexists. split; [exact Hb|]. simpl.
        split; [done|]. by apply Hobs.
    + intros Hb. right. eexists. split; [exact Hb|]. simpl.
      split; [done|]. by apply Hobs.
  - intros Hb. right. eexists. split; [exact Hb|]. simpl.
    split; [done|]. by apply Hobs.
Qed.

End Cache.

(** ** Metadata defects *)

(** C2 (as amended).  When the cache file is absent or can be opened:
    if its metadata cannot be read, the call removes whatever is at the
    cache path and is from there on the build; if the metadata is read
    but does not parse, the call logs a warning and is from there on the
    build, the file being left for the rename of a successful build to
    replace.  Either way the result of the call is the result of the
    build, so no error of the call stems from the metadata. *)
Theorem metadata_defect_is_rebuilt `{GoLib} h options ctx imageName imageDigest w :
  let diskPath := diskPathOf ctx imageName in
  openable (w_fs w) diskPath ->
  (meta_unreadable (w_fs w) diskPath ->
     getOrCreateDiskImage h options ctx imageName imageDigest w
     = createDiskImage h options ctx imageName imageDigest diskPath
         (os_Remove diskPath w)
     /\ w_fs (os_Remove diskPath w) !! diskPath = None)
  /\
  (forall v e, meta_unparseable (w_fs w) diskPath v e ->
     getOrCreateDiskImage h options ctx imageName imageDigest w
     = createDiskImage h options ctx imageName imageDigest diskPath
         (emit (EvLog Warn "failed to parse serialized meta from %s (%v) %v" (Some e)) w)).
Proof.
  intros diskPath Hopen. split.
  - intros Hmeta. split; [by apply getOrCreateDiskImage_unreadable|].
    simpl. apply lookup_delete_eq.
  - intros v e Hmeta. by apply getOrCreateDiskImage_unparseable with (v := v).
Qed.

Lemma metadata_defect_is_rebuilt_witness :
  (openable (w_fs Ref.world0) (diskPathOf Ref.ctx Ref.image) /\
   meta_unreadable (w_fs Ref.world0) (diskPathOf Ref.ctx Ref.image) /\
   getOrCreateDiskImage (Ref.host Ref.quiet) Ref.noOptions Ref.ctx Ref.image Ref.digest
     Ref.world0
   = createDiskImage (Ref.host Ref.quiet) Ref.noOptions Ref.ctx Ref.image Ref.digest
       (diskPathOf Ref.ctx Ref.image)
       (os_Remove (diskPathOf Ref.ctx Ref.image) Ref.world0))
  /\
  (openable (w_fs (Ref.cached "garbage")) (diskPathOf Ref.ctx Ref.image) /\
   meta_unparseable (w_fs (Ref.cached "garbage")) (diskPathOf Ref.ctx Ref.image)
     "garbage" (ErrorString "json: cannot unmarshal") /\
   getOrCreateDiskImage (Ref.host Ref.quiet) Ref.noOptions Ref.ctx Ref.image Ref.digest
     (Ref.cached "garbage")
   = createDiskImage (Ref.host Ref.quiet) Ref.noOptions Ref.ctx Ref.image Ref.digest
       (diskPathOf Ref.ctx Ref.image)
       (emit (EvLog Warn "failed to parse serialized meta from %s (%v) %v"
                (Some (ErrorString "json: cannot unmarshal")))
          (Ref.cached "garbage"))).
Proof.
  assert (Hopen0 : openable (w_fs Ref.world0) (diskPathOf Ref.ctx Ref.image)).
  { intros fl Hfl. vm_compute in Hfl. discriminate Hfl. }
  assert (Hmeta0 : meta_unreadable (w_fs Ref.world0) (diskPathOf Ref.ctx Ref.image)).
  { vm_compute. exact I. }
  assert (Hopen : openable (w_fs (Ref.cached "garbage")) (diskPathOf Ref.ctx Ref.image)).
  { intros fl Hfl. vm_compute in Hfl. injection Hfl as <-. reflexivity. }
  assert (Hmeta : meta_unparseable (w_fs (Ref.cached "garbage"))
                    (diskPathOf Ref.ctx Ref.image) "garbage"
                    (ErrorString "json: cannot unmarshal")).
  { eexists. split; [vm_compute; reflexivity|].
    split; [vm_compute; reflexivity|].
    split; [vm_compute; discriminate|]. vm_compute. reflexivity. }
  split.
  - split; [exact Hopen0|]. split; [exact Hmeta0|].
    exact (proj1 (proj1 (metadata_defect_is_rebuilt (Ref.host Ref.quiet) Ref.noOptions
                           Ref.ctx Ref.image Ref.digest Ref.world0 Hopen0) Hmeta0)).
  - split; [exact Hopen|]. split; [exact Hmeta|].
    exact (proj2 (metadata_defect_is_rebuilt (Ref.host Ref.quiet) Ref.noOptions Ref.ctx
                    Ref.image Ref.digest (Ref.cached "garbage") Hopen) _ _ Hmeta).
Defined.

(** C2 (counterexample).  A cache file whose metadata does not parse is
    not deleted: when the build then fails, the call returns the error
    of the build, nothing was removed at the cache path, and the file is
    still there as it was.  And a cache file that cannot be opened makes
    the call return the error of open, without a build. *)
Lemma stale_file_kept_when_metadata_unparseable :
  (let w := Ref.cached "garbage" in
   let out := Ref.lookup (Ref.failing PodmanRunInstall (ExitError 1))
                Ref.image Ref.digest w in
   json_Unmarshal "garbage" = Err (ErrorString "json: cannot unmarshal") /\
   (exists e, fst out = Err e) /\
   ~ In (EvRemove Ref.target) (w_trace (snd out)) /\
   is_Some (w_fs w !! Ref.target) /\
   w_fs (snd out) !! Ref.target = w_fs w !! Ref.target)
  /\
  (let w := Ref.locked "garbage" in
   Ref.lookup Ref.quiet Ref.image Ref.digest w
   = (Err (PathError "open" Ref.target (Errno EACCES)), w)).
Proof.
  split; [|vm_compute; reflexivity].
  split; [vm_compute; reflexivity|].
  split; [eexists; vm_compute; reflexivity|].
  split; [vm_compute; intuition discriminate|].
  split; [eexists; vm_compute; reflexivity|].
  vm_compute; reflexivity.
Qed.

(** ** Cache hits and a second call *)

(** C4 (as amended).  If the cache file can be read and its metadata
    decodes to the requested digest, the call returns the cache path,
    runs no subprocess and leaves the files alone.  Hence, when the
    first of two consecutive calls with the same image and digest
    returns successfully, the record written for the digest can be read
    back (it fits the 4096-byte buffer and decodes to the digest) and the
    temporary entrypoint was not created under the name of the cache
    file, the second call returns the same path and runs no subprocess,
    and the first ran at most one. *)
Theorem cache_hit_and_second_call `{GoLib} h1 h2 options ctx imageName imageDigest :
  let diskPath := diskPathOf ctx imageName in
  (forall w, meta_matches (w_fs w) diskPath imageDigest ->
     exists w',
       getOrCreateDiskImage h1 options ctx imageName imageDigest w = (Ok diskPath, w') /\
       w_fs w' = w_fs w /\
       execs (w_trace w') = execs (w_trace w))
  /\
  (forall w p w1,
     getOrCreateDiskImage h1 options ctx imageName imageDigest w = (Ok p, w1) ->
     reads_back imageDigest ->
     entrypoint_apart ctx diskPath (w_rand w) ->
     exists w2,
       getOrCreateDiskImage h2 options ctx imageName imageDigest w1 = (Ok p, w2) /\
       p = diskPath /\
       w_fs w2 = w_fs w1 /\
       execs (w_trace w2) = execs (w_trace w1) /\
       (execs (w_trace w1) <= execs (w_trace w) + 1)%nat).
Proof.
  intros diskPath.
  assert (Hhit : forall h w, meta_matches (w_fs w) diskPath imageDigest ->
            exists w',
              getOrCreateDiskImage h options ctx imageName imageDigest w
              = (Ok diskPath, w') /\
              w_fs w' = w_fs w /\ execs (w_trace w') = execs (w_trace w)).
  { intros h w Hm. eexists. split; [by apply getOrCreateDiskImage_hit|].
    split; [done|]. simpl. rewrite execs_app. simpl. lia. }
  split; [by apply Hhit|].
  intros w p w1 Hfirst Hback Hapart.
  apply getOrCreateDiskImage_Ok in Hfirst as [(Hm & -> & ->)|(w0 & Hb & Hrand & Hex & _)].
  - destruct (Hhit h2 (emit (EvLog Debug "previous disk digest: %s current digest: %s"
                               None) w) Hm) as (w2 & Hsecond & Hfs & Hexecs).
    exists w2. repeat split; try done.
    simpl. rewrite execs_app. simpl. lia.
  - apply createDiskImage_Ok in Hb
      as (tmp & entry & buf & argv & Hbuf & -> & _ & _ & _ & (r & Hr & ->) & Hfs & Htr).
    destruct (Hback buf Hbuf) as (Hlen & m & Hparse & Hd).
    assert (Hm : meta_matches (w_fs w1) diskPath imageDigest).
    { exists (mkFile (Installed imageName) 384 {[imageMetaXattr := buf]}), buf, m.
      rewrite Hfs.
      rewrite lookup_delete_ne by (apply Hapart; by rewrite <- Hrand).
      rewrite lookup_insert_eq. simpl. rewrite lookup_singleton_eq.
      repeat split; done. }
    destruct (Hhit h2 w1 Hm) as (w2 & Hsecond & Hfs2 & Hexecs).
    exists w2. repeat split; try done.
    rewrite Htr, execs_app, Hex. simpl. lia.
Qed.

Lemma cache_hit_and_second_call_witness :
  (let w := Ref.cached (Ref.meta_open +:+ Ref.digest +:+ Ref.meta_close) in
   meta_matches (w_fs w) (diskPathOf Ref.ctx Ref.image) Ref.digest /\
   exists w',
     getOrCreateDiskImage (Ref.host Ref.quiet) Ref.noOptions Ref.ctx Ref.image
       Ref.digest w = (Ok (diskPathOf Ref.ctx Ref.image), w') /\
     w_fs w' = w_fs w /\
     execs (w_trace w') = execs (w_trace w))
  /\
  Ref.lookup Ref.quiet Ref.image Ref.digest Ref.world0
  = (Ok Ref.target, snd (Ref.lookup Ref.quiet Ref.image Ref.digest Ref.world0)) /\
  reads_back Ref.digest /\
  entrypoint_apart Ref.ctx (diskPathOf Ref.ctx Ref.image) (w_rand Ref.world0) /\
  exists w2,
    getOrCreateDiskImage (Ref.host (Ref.failing PodmanRunInstall (ExitError 1)))
      Ref.noOptions Ref.ctx Ref.image Ref.digest
      (snd (Ref.lookup Ref.quiet Ref.image Ref.digest Ref.world0))
    = (Ok Ref.target, w2) /\
    Ref.target = diskPathOf Ref.ctx Ref.image /\
    w_fs w2 = w_fs (snd (Ref.lookup Ref.quiet Ref.image Ref.digest Ref.world0)) /\
    execs (w_trace w2)
    = execs (w_trace (snd (Ref.lookup Ref.quiet Ref.image Ref.digest Ref.world0))) /\
    (execs (w_trace (snd (Ref.lookup Ref.quiet Ref.image Ref.digest Ref.world0)))
     <= execs (w_trace Ref.world0) + 1)%nat.
Proof.
  assert (Hm : meta_matches
                 (w_fs (Ref.cached (Ref.meta_open +:+ Ref.digest +:+ Ref.meta_close)))
                 (diskPathOf Ref.ctx Ref.image) Ref.digest).
  { eexists _, _, _. split; [vm_compute; reflexivity|].
    split; [reflexivity|]. split; [vm_compute; reflexivity|].
    split; [vm_compute; discriminate|]. split; vm_compute; reflexivity. }
  assert (Hfirst : getOrCreateDiskImage (Ref.host Ref.quiet) Ref.noOptions Ref.ctx
                     Ref.image Ref.digest Ref.world0
                   = (Ok Ref.target,
                      snd (Ref.lookup Ref.quiet Ref.image Ref.digest Ref.world0)))
    by (vm_compute; reflexivity).
  assert (Hback : reads_back Ref.digest).
  { intros buf Hbuf. vm_compute in Hbuf. injection Hbuf as <-.
    split; [vm_compute; discriminate|].
    eexists. split; vm_compute; reflexivity. }
  assert (Hapart : entrypoint_apart Ref.ctx (diskPathOf Ref.ctx Ref.image)
                     (w_rand Ref.world0)).
  { intros r Hr. vm_compute in Hr. vm_compute.
    destruct Hr as [<-|[<-|[<-|[<-|[]]]]]; discriminate. }
  split.
  { split; [exact Hm|].
    exact (proj1 (cache_hit_and_second_call (Ref.host Ref.quiet) (Ref.host Ref.quiet)
                    Ref.noOptions Ref.ctx Ref.image Ref.digest) _ Hm). }
  split; [exact Hfirst|]. split; [exact Hback|]. split; [exact Hapart|].
  exact (proj2 (cache_hit_and_second_call (Ref.host Ref.quiet)
                  (Ref.host (Ref.failing PodmanRunInstall (ExitError 1)))
                  Ref.noOptions Ref.ctx Ref.image Ref.digest)
           _ _ _ Hfirst Hback Hapart).
Defined.

(** C4 (counterexample).  With the digest unchanged, two consecutive
    calls can run the build subprocess twice: when the first build
    fails; when the record written for the digest is longer than the
    4096-byte buffer it is read with; and when the temporary entrypoint
    was created under the name of the cache file, so that the cleanup of
    the first call removed the disk it had just published.  And a cache
    file with matching metadata that cannot be opened yields the error
    of open, not the path. *)
Lemma unchanged_digest_built_twice :
  (let twice faults imageName imageDigest :=
     let first := Ref.lookup faults imageName imageDigest Ref.world0 in
     let second := Ref.lookup Ref.quiet imageName imageDigest (snd first) in
     (fst first, fst second, execs (w_trace (snd second))) in
   twice (Ref.failing PodmanRunInstall (ExitError 1)) Ref.image Ref.digest
   = (Err (Wrapf "failed to run container to generate temporary disk" (ExitError 1)),
      Ok Ref.target, 2%nat)
   /\
   twice Ref.quiet Ref.image Ref.long_digest = (Ok Ref.target, Ok Ref.target, 2%nat)
   /\
   twice Ref.quiet "entrypoint2" Ref.digest
   = (Ok Ref.entrypoint2, Ok Ref.entrypoint2, 2%nat))
  /\
  (let w := Ref.locked (Ref.meta_open +:+ Ref.digest +:+ Ref.meta_close) in
   json_Unmarshal (Ref.meta_open +:+ Ref.digest +:+ Ref.meta_close)
   = Ok (mkMeta Ref.digest) /\
   Ref.lookup Ref.quiet Ref.image Ref.digest w
   = (Err (PathError "open" Ref.target (Errno EACCES)), w)).
Proof.
  repeat split; vm_compute; reflexivity.
Qed.

(** ** The applehv provider: launching a transient machine *)

Ltac run_hv :=
  repeat (unfold AppleHV.os_MkdirTemp, AppleHV.os_MkdirAll, AppleHV.os_RemoveAll,
     AppleHV.getBasicDevices, AppleHV.getDebugDevices,
     VfConfig.VirtioRngNew, VfConfig.VirtioBlkNew, VfConfig.VirtioGPUNew,
     VfConfig.VirtioInputNew, VfConfig.VirtioSerialNewStdio,
     VfConfig.NewVirtualMachine, VfConfig.Cmd in *; run).

Ltac split_at h s :=
  match goal with |- context [fault h s] => destruct (fault h s) eqn:?; run_hv end.

(** The trace of the goal is the initial one followed by explicit events. *)
Ltac trace_ext :=
  simpl; rewrite <- ?app_assoc; simpl; first [reflexivity | symmetry; apply app_nil_r].

(** A return before the hypervisor is run. *)
Ltac no_run :=
  left; eexists _, _; split; [reflexivity|]; split; [trace_ext|];
  split; [reflexivity|]; split;
  [ intros a Hin; simpl in Hin; intuition discriminate
  | intros p vm Hin; simpl in Hin;
    repeat (destruct Hin as [Hin|Hin];
            [try discriminate Hin; injection Hin as <- <-; reflexivity|]);
    destruct Hin ].

#[local] Opaque VfConfig.ToCmdLine.

(** Every run of SpawnTransient: an error before the hypervisor is run,
    or a run of the hypervisor and no error. *)
Lemma SpawnTransient_cases `{GoLib} h opts w :
  let out := AppleHV.SpawnTransient h opts w in
  (exists e evs,
     fst out = Err e /\ w_trace (snd out) = w_trace w ++ evs /\
     spawns evs = [] /\
     (forall a, ~ In (EvExec a) evs) /\
     (forall p vm, In (EvVfkitCmd p vm) evs -> Devices vm = expected_devices opts))
  \/
  (exists tempdir efidir vm tail,
     fst out = Ok tt /\ Devices vm = expected_devices opts /\
     w_trace (snd out) = w_trace w ++
       [EvMkdirAll efidir; EvVfkitCmd (vfkitHelper h) vm;
        EvLog Debug "Spawning vfkit: %v" None;
        EvExec (vfkitHelper h :: VfConfig.ToCmdLine vm ++ tail)] ++
       match fault h VfkitRun with
       | Some e => [EvLog Info "vfkit exited with error: %v" (Some e)]
       | None => []
       end ++ [EvRemoveAll tempdir]).
Proof.
  destruct w as [fs rand trace]. unfold AppleHV.SpawnTransient, expected_devices.
  run_hv.
  split_at h ConfigDefault; [no_run|].
  split_at h MkdirTemp; [no_run|].
  destruct rand as [|r rand]; run_hv; [no_run|].
  split_at h MkdirAllEfi; [no_run|].
  split_at h FindHelperBinary; [no_run|].
  split_at h AtVirtioRngNew; [no_run|].
  split_at h AtVirtioBlkNew; [no_run|].
  destruct (Gui opts) eqn:Hgui; run_hv.
  - split_at h AtVirtioGPUNew; [no_run|].
    split_at h AtVirtioInputNewPointing; [no_run|].
    split_at h AtVirtioInputNewKeyboard; [no_run|].
    split_at h VmconfigCmd; [no_run|].
    right. destruct (VMDebug opts); destruct (fault h VfkitRun); run_hv.
    all: eexists _, _, _, _; split; [reflexivity|]; split; [|trace_ext]; reflexivity.
  - split_at h AtVirtioSerialNewStdio; [no_run|].
    split_at h VmconfigCmd; [no_run|].
    right. destruct (VMDebug opts); destruct (fault h VfkitRun); run_hv.
    all: eexists _, _, _, _; split; [reflexivity|]; split; [|trace_ext]; reflexivity.
Qed.

(** When the steps before it succeed and the device constructors do,
    SpawnTransient hands a configuration with the expected devices to
    the hypervisor library, and runs the hypervisor on its command line
    when the library accepts it. *)
Lemma SpawnTransient_hands_over `{GoLib} h opts w :
  fault h ConfigDefault = None ->
  fault h MkdirTemp = None ->
  w_rand w <> [] ->
  fault h MkdirAllEfi = None ->
  fault h FindHelperBinary = None ->
  fault h AtVirtioRngNew = None ->
  fault h AtVirtioBlkNew = None ->
  (if Gui opts
   then fault h AtVirtioGPUNew = None /\
        fault h AtVirtioInputNewPointing = None /\
        fault h AtVirtioInputNewKeyboard = None
   else fault h AtVirtioSerialNewStdio = None) ->
  exists vm before after,
    Devices vm = expected_devices opts /\
    w_trace (snd (AppleHV.SpawnTransient h opts w))
    = w_trace w ++ before ++ EvVfkitCmd (vfkitHelper h) vm :: after /\
    (fault h VmconfigCmd = None ->
     exists tail, In (EvExec (vfkitHelper h :: VfConfig.ToCmdLine vm ++ tail)) after).
Proof.
  intros Hcfg Hmk Hrand Hefi Hbin Hrng Hblk Hmode.
  destruct w as [fs rand trace]. simpl in Hrand.
  destruct rand as [|r rand]; [by destruct Hrand|].
  unfold AppleHV.SpawnTransient, expected_devices. run_hv.
  rewrite Hcfg. run_hv. rewrite Hmk. run_hv. rewrite Hefi. run_hv.
  rewrite Hbin. run_hv. rewrite Hrng. run_hv. rewrite Hblk. run_hv.
  destruct (Gui opts); run_hv.
  - destruct Hmode as (Hgpu & Hptr & Hkbd).
    rewrite Hgpu. run_hv. rewrite Hptr. run_hv. rewrite Hkbd. run_hv.
    destruct (fault h VmconfigCmd) as [e|]; run_hv.
    + eexists (mkVirtualMachine _ _ _ _), [_], [_].
      split; [reflexivity|]. split; [trace_ext|]. intros Hno. discriminate Hno.
    + destruct (VMDebug opts); destruct (fault h VfkitRun); run_hv.
      all: eexists (mkVirtualMachine _ _ _ _), [_], _;
        split; [reflexivity|]; split; [trace_ext|];
        intros _; eexists; right; left; rewrite <- ?app_assoc; reflexivity.
  - rewrite Hmode. run_hv.
    destruct (fault h VmconfigCmd) as [e|]; run_hv.
    + eexists (mkVirtualMachine _ _ _ _), [_], [_].
      split; [reflexivity|]. split; [trace_ext|]. intros Hno. discriminate Hno.
    + destruct (VMDebug opts); destruct (fault h VfkitRun); run_hv.
      all: eexists (mkVirtualMachine _ _ _ _), [_], _;
        split; [reflexivity|]; split; [trace_ext|];
        intros _; eexists; right; left; rewrite <- ?app_assoc; reflexivity.
Qed.

#[local] Transparent VfConfig.ToCmdLine.

(** C6.  SpawnTransient of the applehv backend constructs, in GUI mode,
    the device list entropy, disk, graphics, pointer, keyboard, in this
    order, and otherwise the list entropy, disk, console on the standard
    streams.  Whenever it hands a machine configuration to the
    hypervisor library, the configuration has exactly this list, and
    the command line the hypervisor is run with carries the device
    arguments of exactly this list, one device after the other in list
    order.  And it does hand over such a configuration, in either mode,
    whenever the steps before the devices succeed and the device
    constructors of the mode do; when the library then accepts the
    configuration, the hypervisor is run with the device arguments of
    the list in list order. *)
Theorem SpawnTransient_device_order `{GoLib} h opts w :
  let devices := if Gui opts
                 then [VirtioRng; VirtioBlk (Disk opts); VirtioGPU;
                       VirtioInput VirtioInputPointingDevice;
                       VirtioInput VirtioInputKeyboardDevice]
                 else [VirtioRng; VirtioBlk (Disk opts); VirtioSerialStdio] in
  exists evs,
    w_trace (snd (AppleHV.SpawnTransient h opts w)) = w_trace w ++ evs /\
    (forall vfkitPath vm, In (EvVfkitCmd vfkitPath vm) evs ->
       Devices vm = devices /\
       forall argv, In (EvExec argv) evs ->
         exists head tail,
           argv = head ++ concat (map VfConfig.device_args (Devices vm)) ++ tail) /\
    (fault h ConfigDefault = None ->
     fault h MkdirTemp = None ->
     w_rand w <> [] ->
     fault h MkdirAllEfi = None ->
     fault h FindHelperBinary = None ->
     fault h AtVirtioRngNew = None ->
     fault h AtVirtioBlkNew = None ->
     (if Gui opts
      then fault h AtVirtioGPUNew = None /\
           fault h AtVirtioInputNewPointing = None /\
           fault h AtVirtioInputNewKeyboard = None
      else fault h AtVirtioSerialNewStdio = None) ->
     exists vm,
       In (EvVfkitCmd (vfkitHelper h) vm) evs /\
       Devices vm = devices /\
       (fault h VmconfigCmd = None ->
        exists head tail,
          In (EvExec (head ++ concat (map VfConfig.device_args devices) ++ tail)) evs)).
Proof.
  intros devices.
  assert (Hall : exists evs,
            w_trace (snd (AppleHV.SpawnTransient h opts w)) = w_trace w ++ evs /\
            forall vfkitPath vm, In (EvVfkitCmd vfkitPath vm) evs ->
              Devices vm = devices /\
              forall argv, In (EvExec argv) evs ->
                exists head tail,
                  argv = head ++ concat (map VfConfig.device_args (Devices vm)) ++ tail).
  { destruct (SpawnTransient_cases h opts w)
      as [(e & evs & _ & Htr & _ & Hexec & Hcmd)
         |(tempdir & efidir & vm0 & tail & _ & Hdev & Htr)].
    - exists evs. split; [exact Htr|]. intros p vm Hin. split.
      + exact (Hcmd p vm Hin).
      + intros argv Ha. destruct (Hexec argv Ha).
    - eexists. split; [exact Htr|]. intros p vm Hin.
      assert (Hvm : vm = vm0).
      { simpl in Hin. destruct Hin as [Hin|[Hin|[Hin|[Hin|Hin]]]]; try discriminate Hin.
        - by injection Hin.
        - destruct (fault h VfkitRun); simpl in Hin; intuition discriminate. }
      subst vm. split; [exact Hdev|].
      intros argv Ha.
      assert (Hargv : argv = vfkitHelper h :: VfConfig.ToCmdLine vm0 ++ tail).
      { simpl in Ha. destruct Ha as [Ha|[Ha|[Ha|[Ha|Ha]]]]; try discriminate Ha.
        - by injection Ha.
        - destruct (fault h VfkitRun); simpl in Ha; intuition discriminate. }
      subst argv. unfold VfConfig.ToCmdLine.
      eexists (_ :: _), tail. rewrite <- app_assoc. reflexivity. }
  destruct Hall as (evs & Htr & Honly).
  exists evs. split; [exact Htr|]. split; [exact Honly|].
  intros Hcfg Hmk Hrand Hefi Hbin Hrng Hblk Hmode.
  destruct (SpawnTransient_hands_over h opts w Hcfg Hmk Hrand Hefi Hbin Hrng Hblk Hmode)
    as (vm & before & after & Hdev & Htr' & Hrun).
  rewrite Htr in Htr'. apply app_inv_head in Htr'. subst evs.
  exists vm. split; [apply in_app_iff; right; left; reflexivity|].
  split; [exact Hdev|].
  intros Hlib. destruct (Hrun Hlib) as (tail & Hin).
  exists (vfkitHelper h
          :: ["--cpus"; VfConfig.decimal (Vcpus vm); "--memory";
              VfConfig.decimal (Memory vm); "--bootloader";
              "efi,variable-store=" +:+ efiVariableStorePath (VMBootloader vm)
              +:+ (if createVariableStore (VMBootloader vm) then ",create" else "")]),
         tail.
  apply in_app_iff. right. right.
  assert (Hd : devices = Devices vm) by (rewrite Hdev; reflexivity).
  rewrite Hd. unfold VfConfig.ToCmdLine in Hin.
  rewrite <- app_assoc in Hin. exact Hin.
Qed.

Lemma SpawnTransient_device_order_witness :
  let gui := w_trace (snd (AppleHV.SpawnTransient (Ref.host Ref.quiet)
                             Ref.gui_opts Ref.world0)) in
  let headless := w_trace (snd (AppleHV.SpawnTransient (Ref.host Ref.quiet)
                                  Ref.headless_opts Ref.world0)) in
  (exists vm head tail,
     In (EvVfkitCmd "/opt/podman/bin/vfkit" vm) gui /\
     Devices vm = [VirtioRng; VirtioBlk Ref.target; VirtioGPU;
                   VirtioInput VirtioInputPointingDevice;
                   VirtioInput VirtioInputKeyboardDevice] /\
     In (EvExec (head ++ ["--device"; "virtio-rng";
                          "--device"; "virtio-blk,path=" +:+ Ref.target;
                          "--device"; "virtio-gpu,width=800,height=600";
                          "--device"; "virtio-input,pointing";
                          "--device"; "virtio-input,keyboard"] ++ tail)) gui) /\
  (exists vm head tail,
     In (EvVfkitCmd "/opt/podman/bin/vfkit" vm) headless /\
     Devices vm = [VirtioRng; VirtioBlk Ref.target; VirtioSerialStdio] /\
     In (EvExec (head ++ ["--device"; "virtio-rng";
                          "--device"; "virtio-blk,path=" +:+ Ref.target;
                          "--device"; "virtio-serial,stdio"] ++ tail)) headless).
Proof.
  split.
  - destruct (SpawnTransient_device_order (Ref.host Ref.quiet) Ref.gui_opts Ref.world0)
      as (evs & Htr & _ & Hbuilt).
    destruct Hbuilt as (vm & Hin & Hdev & Hrun);
      [reflexivity|reflexivity|discriminate|reflexivity|reflexivity|reflexivity
      |reflexivity|repeat split|].
    destruct (Hrun eq_refl) as (head & tail & Hexec).
    exists vm, head, tail. simpl app in Htr. rewrite Htr.
    split; [exact Hin|]. split; [exact Hdev|exact Hexec].
  - destruct (SpawnTransient_device_order (Ref.host Ref.quiet) Ref.headless_opts
                Ref.world0) as (evs & Htr & _ & Hbuilt).
    destruct Hbuilt as (vm & Hin & Hdev & Hrun);
      [reflexivity|reflexivity|discriminate|reflexivity|reflexivity|reflexivity
      |reflexivity|reflexivity|].
    destruct (Hrun eq_refl) as (head & tail & Hexec).
    exists vm, head, tail. simpl app in Htr. rewrite Htr.
    split; [exact Hin|]. split; [exact Hdev|exact Hexec].
Defined.

(** C8.  Whenever SpawnTransient of the applehv backend has run the
    hypervisor (started it and waited for it), it returns no error,
    whatever the outcome of that run; an outcome that is an error, such
    as a non-zero exit, is written to the log. *)
Theorem SpawnTransient_exit_not_escalated `{GoLib} h opts w argv evs :
  w_trace (snd (AppleHV.SpawnTransient h opts w)) = w_trace w ++ evs ->
  In (EvExec argv) evs ->
  fst (AppleHV.SpawnTransient h opts w) = Ok tt /\
  forall e, fault h VfkitRun = Some e ->
    In (EvLog Info "vfkit exited with error: %v" (Some e)) evs.
Proof.
  intros Hevs Hin.
  destruct (SpawnTransient_cases h opts w)
    as [(e & evs' & _ & Htr & _ & Hexec & _)
       |(tempdir & efidir & vm0 & tail & Hok & _ & Htr)].
  - rewrite Htr in Hevs. apply app_inv_head in Hevs. subst evs'.
    destruct (Hexec argv Hin).
  - split; [exact Hok|]. intros e He.
    rewrite Htr in Hevs. apply app_inv_head in Hevs. subst evs.
    rewrite He. simpl. tauto.
Qed.

Lemma SpawnTransient_exit_not_escalated_witness :
  let out := AppleHV.SpawnTransient (Ref.host (Ref.failing VfkitRun (ExitError 1)))
               Ref.gui_opts Ref.world0 in
  fst out = Ok tt /\
  In (EvLog Info "vfkit exited with error: %v" (Some (ExitError 1))) (w_trace (snd out)).
Proof.
  set (h := Ref.host (Ref.failing VfkitRun (ExitError 1))).
  assert (Htr : w_trace (snd (AppleHV.SpawnTransient h Ref.gui_opts Ref.world0))
                = w_trace Ref.world0
                  ++ w_trace (snd (AppleHV.SpawnTransient h Ref.gui_opts Ref.world0)))
    by reflexivity.
  assert (Hin : exists argv,
             In (EvExec argv)
                (w_trace (snd (AppleHV.SpawnTransient h Ref.gui_opts Ref.world0)))).
  { vm_compute. eexists. right. right. right. left. reflexivity. }
  destruct Hin as (argv & Hin).
  destruct (SpawnTransient_exit_not_escalated h Ref.gui_opts Ref.world0 argv _ Htr Hin)
    as [Hok Hlog].
  split; [exact Hok|]. exact (Hlog (ExitError 1) eq_refl).
Defined.

(** ** The command *)

Ltac same_spawns :=
  simpl; rewrite ?spawns_app; simpl; rewrite ?app_nil_r; reflexivity.

Ltac split_on h s :=
  match goal with |- context [fault h s] => destruct (fault h s) eqn:?; run end.

Section Command.
Context `{GoLib}.

Lemma createDiskImage_spawns h options ctx imageName imageDigest targetDisk w :
  spawns (w_trace (snd (createDiskImage h options ctx imageName imageDigest targetDisk w)))
  = spawns (w_trace w).
Proof.
  destruct w as [fs rand trace]. unfold createDiskImage. run.
  split_on h CreateTempDisk; [same_spawns|].
  destruct (pick_name fs _ _ rand) as [[tmp rand1]|]; run; [|same_spawns].
  split_on h FtruncateDisk; [same_spawns|].
  split_on h CreateTempEntrypoint; [same_spawns|].
  destruct (pick_name (alter _ tmp _) _ _ rand1) as [[entry rand2]|]; run; [|same_spawns].
  split_on h CopyEntrypoint; [same_spawns|].
  split_on h ChmodEntrypoint; [same_spawns|].
  split_on h PodmanRunInstall; [same_spawns|].
  destruct (json_Marshal _) as [buf|]; run; [|same_spawns].
  split_on h FsetxattrMeta; [same_spawns|].
  split_on h RenameDisk; [same_spawns|].
  destruct (_ !! tmp); run; same_spawns.
Qed.

Lemma getOrCreateDiskImage_spawns h options ctx imageName imageDigest w :
  spawns (w_trace (snd (getOrCreateDiskImage h options ctx imageName imageDigest w)))
  = spawns (w_trace w).
Proof.
  unfold getOrCreateDiskImage, os_Open, unix_Fgetxattr.
  set (diskPath := diskPathOf ctx imageName).
  destruct w as [fs rand trace]. run.
  destruct (fs !! diskPath) as [fl|] eqn:Hfl; run.
  - destruct (Z.testbit (f_mode fl) 8); run; [|reflexivity].
    rewrite Hfl.
    destruct (f_xattr fl !! imageMetaXattr) as [v|]; run.
    + destruct (Z.leb (Z.of_nat (String.length v)) 4096); run.
      * destruct (json_Unmarshal v) as [m|e]; run.
        -- destruct (String.eqb (ImageDigest m) imageDigest); run; [same_spawns|].
           rewrite createDiskImage_spawns. same_spawns.
        -- rewrite createDiskImage_spawns. same_spawns.
      * rewrite createDiskImage_spawns. same_spawns.
    + rewrite createDiskImage_spawns. same_spawns.
  - rewrite createDiskImage_spawns. same_spawns.
Qed.

(** A successful lookup returns the cache path of the image. *)
Lemma getOrCreateDiskImage_path h options ctx imageName imageDigest w p w' :
  getOrCreateDiskImage h options ctx imageName imageDigest w = (Ok p, w') ->
  p = diskPathOf ctx imageName.
Proof.
  intros Hg. apply getOrCreateDiskImage_Ok in Hg as [(_ & -> & _)|(w0 & Hb & _)]; [done|].
  by apply createDiskImage_Ok in Hb as (? & ? & ? & ? & _ & -> & _).
Qed.

(** Every run of the command: no call of SpawnTransient, or exactly one,
    with these options. *)
Lemma vmrun_spawns h options provider cmd args w :
  silent provider ->
  let out := vmrun h options provider cmd args w in
  let ctx := mkCtx cmd (filepath_Join (globalDataDir h) vmrunCacheDir) in
  spawns (w_trace (snd out)) = spawns (w_trace w)
  \/ exists imageName rest,
       args = imageName :: rest /\
       spawns (w_trace (snd out)) = spawns (w_trace w) ++
         [{| Cpus := 2; MemoryMiB := 2048; Disk := diskPathOf ctx imageName;
             Gui := true; VMDebug := vmDebug options |}].
Proof.
  intros Hsilent. destruct w as [fs rand trace]. unfold vmrun. run.
  split_on h PersistentPreRunE; [left; same_spawns|].
  split_on h GetGlobalDataDir; [left; same_spawns|].
  split_on h MkdirAllCache; [left; same_spawns|].
  destruct args as [|imageName rest]; run; [left; same_spawns|].
  split_on h InspectProbe; [split_on h PodmanPull; [left; same_spawns|]|].
  all: split_on h InspectDigest; [left; same_spawns|].
  all: match goal with
       | |- context [getOrCreateDiskImage ?a ?b ?c ?d ?e ?w0] =>
           pose proof (getOrCreateDiskImage_spawns a b c d e w0) as Hsp;
           pose proof (getOrCreateDiskImage_path a b c d e w0) as Hpath;
           destruct (getOrCreateDiskImage a b c d e w0)
             as [[disk|err] [fs1 rand1 trace1]]
       end; run; [|left; rewrite Hsp; same_spawns].
  all: specialize (Hpath _ _ eq_refl); subst disk.
  all: split_on h CreateTempClone; [left; rewrite ?spawns_app, Hsp; same_spawns|].
  all: destruct (pick_name fs1 _ _ rand1) as [[clone rand2]|]; run;
         [|left; rewrite ?spawns_app, Hsp; same_spawns].
  all: unfold cp_clone; run.
  all: split_on h CpClone; [left; rewrite ?spawns_app, Hsp; same_spawns|].
  all: match goal with
       | |- context [match ?m !! ?k with _ => _ end] => destruct (m !! k)
       end; run.
  all: split_on h ProviderGet; [left; rewrite ?spawns_app, Hsp; same_spawns|].
  all: right; exists imageName, rest; split; [reflexivity|].
  all: match goal with
       | |- context [SpawnTransient ?p ?o ?w0] =>
           pose proof (Hsilent o w0) as Hs;
           destruct (SpawnTransient p o w0) as [r [fs2 rand3 trace2]]
       end; run.
  all: rewrite ?spawns_app, Hs, ?spawns_app, Hsp; same_spawns.
Qed.

(** The applehv provider does not call SpawnTransient again. *)
Lemma AppleHV_silent h : silent (AppleHV.VirtualizationProvider h).
Proof.
  intros opts w. simpl.
  destruct (SpawnTransient_cases h opts w)
    as [(e & evs & _ & Htr & Hsp & _)
       |(tempdir & efidir & vm0 & tail & _ & _ & Htr)];
    rewrite Htr, spawns_app.
  - by rewrite Hsp, app_nil_r.
  - destruct (fault h VfkitRun); simpl; by rewrite app_nil_r.
Qed.

End Command.



(** C1 (the code at the failing input).  In every run of the command
    with a provider that does not itself spawn, the disk of each call of
    SpawnTransient is the cache file of the image.  On an empty cache
    the run builds the disk, clones it with cp into a fresh temporary
    file, spawns on the cache file, not on the clone, and removes the
    clone at the end. *)
Theorem vmrun_spawns_on_cache_file :
  (forall `{GoLib} h options provider cmd args w,
     silent provider ->
     exists calls,
       spawns (w_trace (snd (vmrun h options provider cmd args w)))
       = spawns (w_trace w) ++ calls /\
       forall opts, In opts calls ->
         exists imageName rest,
           args = imageName :: rest /\
           Disk opts = diskPathOf (mkCtx cmd (filepath_Join (globalDataDir h) vmrunCacheDir))
                         imageName)
  /\
  (let trace := w_trace (snd (Ref.command Ref.noOptions)) in
   fst (Ref.command Ref.noOptions) = Ok tt /\
   Ref.clone3 <> Ref.target /\
   In (EvCreate Ref.clone3) trace /\
   In (EvExec ["cp"; "-fc"; Ref.target; Ref.clone3]) trace /\
   spawns trace = [mkSpawnTransientOpts 2 2048 Ref.target true false] /\
   In (EvRemove Ref.clone3) trace).
Proof.
  split.
  - intros L h options provider cmd args w Hsilent.
    destruct (vmrun_spawns h options provider cmd args w Hsilent)
      as [Hnone|(imageName & rest & Hargs & Hone)].
    + exists []. rewrite app_nil_r. split; [exact Hnone|]. intros opts [].
    + eexists. split; [exact Hone|].
      intros opts [<-|[]]. exists imageName, rest. done.
  - split; [vm_compute; reflexivity|].
    split; [discriminate|].
    split; [vm_compute; tauto|].
    split; [vm_compute; tauto|].
    split; [vm_compute; reflexivity|].
    vm_compute; tauto.
Qed.

(** ** The applehv provider: listing machines *)

Section Listing.
Variable h : Host.

(** A tolerated probe yields a response with the state List works with. *)
Lemma listOne_tolerated mm :
  probe_tolerated h mm ->
  exists r, AppleHV.listOne h mm = Ok r /\
            lr_Name r = mm_Name mm /\
            lr_Running r = AppleHV.status_eqb (listed_state h mm) Running /\
            lr_Starting r = AppleHV.status_eqb (listed_state h mm) Starting.
Proof.
  unfold probe_tolerated, AppleHV.listOne, listed_state. intros Htol.
  destruct (vfkitState h (mm_Endpoint mm)) as [st|e].
  - eexists. split; [reflexivity|]. done.
  - rewrite (Htol e eq_refl). eexists. split; [reflexivity|]. done.
Qed.

Lemma listOne_fatal mm e :
  vfkitState h (mm_Endpoint mm) = Err e ->
  errors_Is e (Errno ECONNREFUSED) = false ->
  AppleHV.listOne h mm = Err e.
Proof.
  unfold AppleHV.listOne. intros -> Hnot. by rewrite Hnot.
Qed.

Lemma listLoop_tolerated mms : forall response,
  Forall (probe_tolerated h) mms ->
  exists rs, AppleHV.listLoop h mms response = Ok (response ++ rs) /\
    Forall2 (fun mm r =>
               lr_Name r = mm_Name mm /\
               lr_Running r = AppleHV.status_eqb (listed_state h mm) Running /\
               lr_Starting r = AppleHV.status_eqb (listed_state h mm) Starting)
            mms rs.
Proof.
  induction mms as [|mm mms IH]; intros response Hall.
  - exists []. simpl. rewrite app_nil_r. split; [done|]. constructor.
  - apply Forall_cons in Hall as [Hmm Hall].
    destruct (listOne_tolerated mm Hmm) as (r & Hr & Hprops).
    destruct (IH (response ++ [r]) Hall) as (rs & Hrs & Hall2).
    exists (r :: rs). simpl. rewrite Hr, Hrs, <- app_assoc. split; [done|].
    by constructor.
Qed.

Lemma listLoop_fatal pre mm post e : forall response,
  Forall (probe_tolerated h) pre ->
  vfkitState h (mm_Endpoint mm) = Err e ->
  errors_Is e (Errno ECONNREFUSED) = false ->
  AppleHV.listLoop h (pre ++ mm :: post) response = Err e.
Proof.
  induction pre as [|x pre IH]; intros response Hall He Hnot; simpl.
  - by rewrite (listOne_fatal mm e He Hnot).
  - apply Forall_cons in Hall as [Hx Hall].
    destruct (listOne_tolerated x Hx) as (r & -> & _).
    by apply IH.
Qed.

End Listing.

(** C7.  For every List call of the applehv provider over the persisted
    machines [mms]: a probe that fails with connection refused (also
    when wrapped) is taken as Stopped, so the machine is listed as
    neither running nor starting; if every probe succeeds or is refused,
    List returns one response per machine, in order; and if the first
    probe that is neither fails with the error [e], List returns [e] and
    no responses. *)
Theorem List_refused_is_stopped_other_errors_abort h w mms w1 :
  AppleHV.loadFromLocalJson h w = (Ok mms, w1) ->
  (forall mm e,
     vfkitState h (mm_Endpoint mm) = Err e ->
     errors_Is e (Errno ECONNREFUSED) = true ->
     listed_state h mm = Stopped /\
     exists r, AppleHV.listOne h mm = Ok r /\
               lr_Running r = false /\ lr_Starting r = false)
  /\
  (Forall (probe_tolerated h) mms ->
   exists rs,
     AppleHV.List h w = (Ok rs, w1) /\
     Forall2 (fun mm r =>
                lr_Name r = mm_Name mm /\
                lr_Running r = AppleHV.status_eqb (listed_state h mm) Running /\
                lr_Starting r = AppleHV.status_eqb (listed_state h mm) Starting)
             mms rs)
  /\
  (forall pre mm post e,
     mms = pre ++ mm :: post ->
     Forall (probe_tolerated h) pre ->
     vfkitState h (mm_Endpoint mm) = Err e ->
     errors_Is e (Errno ECONNREFUSED) = false ->
     AppleHV.List h w = (Err e, w1)).
Proof.
  intros Hload. split; [|split].
  - intros mm e He Hrefused.
    unfold listed_state, AppleHV.listOne. rewrite He, Hrefused.
    split; [done|]. eexists. split; [reflexivity|]. done.
  - intros Hall. destruct (listLoop_tolerated h mms [] Hall) as (rs & Hrs & Hall2).
    exists rs. unfold AppleHV.List, bind. rewrite Hload. simpl in Hrs.
    unfold lift. rewrite Hrs. done.
  - intros pre mm post e -> Hall He Hnot.
    unfold AppleHV.List, bind. rewrite Hload. unfold lift.
    by rewrite (listLoop_fatal h pre mm post e [] Hall He Hnot).
Qed.

Lemma List_refused_is_stopped_other_errors_abort_witness :
  (listed_state (Ref.fleet Ref.probe_refused) (Ref.machine "/conf/applehv/a.json")
   = Stopped)
  /\
  (exists rs,
     AppleHV.List (Ref.fleet Ref.probe_refused) Ref.world0 = (Ok rs, Ref.world0) /\
     map lr_Name rs = ["/conf/applehv/a.json"; "/conf/applehv/b.json"] /\
     map lr_Running rs = [false; true])
  /\
  AppleHV.List (Ref.fleet Ref.probe_timeout) Ref.world0
  = (Err (Errno ETIMEDOUT), Ref.world0).
Proof.
  pose (mms := [Ref.machine "/conf/applehv/a.json"; Ref.machine "/conf/applehv/b.json"]).
  assert (Hload : forall probe,
            AppleHV.loadFromLocalJson (Ref.fleet probe) Ref.world0 = (Ok mms, Ref.world0))
    by (intros probe; reflexivity).
  split; [|split].
  - destruct (List_refused_is_stopped_other_errors_abort
                (Ref.fleet Ref.probe_refused) Ref.world0 mms Ref.world0
                (Hload Ref.probe_refused)) as (Hstopped & _ & _).
    exact (proj1 (Hstopped (Ref.machine "/conf/applehv/a.json")
                    (Wrapf "Get http://localhost/vm/state" (Errno ECONNREFUSED))
                    eq_refl eq_refl)).
  - destruct (List_refused_is_stopped_other_errors_abort
                (Ref.fleet Ref.probe_refused) Ref.world0 mms Ref.world0
                (Hload Ref.probe_refused)) as (_ & Hlist & _).
    assert (Hall : Forall (probe_tolerated (Ref.fleet Ref.probe_refused)) mms).
    { repeat constructor.
      - intros e He. vm_compute in He. injection He as <-. reflexivity.
      - intros e He. vm_compute in He. discriminate He. }
    destruct (Hlist Hall) as (rs & Hrs & Hall2).
    exists rs. split; [exact Hrs|].
    apply Forall2_cons_inv_l in Hall2 as (ra & rs' & (Hna & Hra & _) & Hall2 & ->).
    apply Forall2_cons_inv_l in Hall2 as (rb & rs'' & (Hnb & Hrb & _) & Hall2 & ->).
    apply Forall2_nil_inv_l in Hall2 as ->.
    simpl. rewrite Hna, Hnb, Hra, Hrb. split; reflexivity.
  - destruct (List_refused_is_stopped_other_errors_abort
                (Ref.fleet Ref.probe_timeout) Ref.world0 mms Ref.world0
                (Hload Ref.probe_timeout)) as (_ & _ & Hfatal).
    apply (Hfatal [Ref.machine "/conf/applehv/a.json"]
             (Ref.machine "/conf/applehv/b.json") [] (Errno ETIMEDOUT)).
    + reflexivity.
    + repeat constructor. intros e He. vm_compute in He. injection He as <-. reflexivity.
    + reflexivity.
    + reflexivity.
Defined.

(** ** The cache path *)

Lemma prefix_slash c s : String.prefix "/" (String c s) = Ascii.eqb c "/"%char.
Proof.
  cbn [String.prefix]. destruct (Ascii.ascii_dec "/" c) as [<-|Hne].
  - destruct s; reflexivity.
  - symmetry. apply Ascii.eqb_neq. congruence.
Qed.

Lemma replace_slash s :
  strings_ReplaceAll s "/" "_" = slashes_to_underscores s.
Proof.
  unfold strings_ReplaceAll.
  induction s as [|c s IH]; [reflexivity|].
  change (replace_from "/" "_" (String c s) O)
    with (if String.prefix "/" (String c s)
          then "_" +:+ replace_from "/" "_" s O
          else String c (replace_from "/" "_" s O)).
  rewrite prefix_slash. cbn [slashes_to_underscores].
  destruct (Ascii.eqb c "/"%char); rewrite IH; reflexivity.
Qed.

Lemma slashes_to_underscores_get s : forall i c,
  String.get i s = Some c ->
  String.get i (slashes_to_underscores s)
  = Some (if Ascii.eqb c "/"%char then "_"%char else c).
Proof.
  induction s as [|x s IH]; intros i c; simpl; [discriminate|].
  destruct i as [|i]; [by intros [= ->]|]. apply IH.
Qed.

Lemma slashes_to_underscores_length s :
  String.length (slashes_to_underscores s) = String.length s.
Proof. induction s as [|x s IH]; simpl; [done|]. by rewrite IH. Qed.

(** C10.  The cache file name of an image is the image name with every
    '/' replaced by '_' and every other character, ':' and '@' among
    them, kept as it is and where it is.  So names that differ only in
    '/' against '_' have the same cache file: 'a/b:t' and 'a_b:t' are
    different images with one cache path, and a cache entry that matches
    the digest for one is returned, without a build, for the other. *)
Theorem cache_path_replaces_only_slashes `{GoLib} ctx :
  (forall imageName,
     diskPathOf ctx imageName
     = filepath_Join (cachedir ctx) (slashes_to_underscores imageName)) /\
  (forall imageName,
     String.length (slashes_to_underscores imageName) = String.length imageName) /\
  (forall imageName i c,
     String.get i imageName = Some c ->
     String.get i (slashes_to_underscores imageName)
     = Some (if Ascii.eqb c "/"%char then "_"%char else c)) /\
  slashes_to_underscores "reg.io/a/b:t@sha256:0" = "reg.io_a_b:t@sha256:0" /\
  "a/b:t" <> "a_b:t" /\
  diskPathOf ctx "a/b:t" = diskPathOf ctx "a_b:t" /\
  (forall h options digest w,
     meta_matches (w_fs w) (diskPathOf ctx "a/b:t") digest ->
     fst (getOrCreateDiskImage h options ctx "a_b:t" digest w)
     = Ok (diskPathOf ctx "a/b:t") /\
     execs (w_trace (snd (getOrCreateDiskImage h options ctx "a_b:t" digest w)))
     = execs (w_trace w)).
Proof.
  assert (Hpath : forall imageName,
            diskPathOf ctx imageName
            = filepath_Join (cachedir ctx) (slashes_to_underscores imageName)).
  { intros imageName. unfold diskPathOf. by rewrite replace_slash. }
  assert (Hsame : diskPathOf ctx "a/b:t" = diskPathOf ctx "a_b:t")
    by (rewrite !Hpath; reflexivity).
  split; [exact Hpath|].
  split; [exact slashes_to_underscores_length|].
  split; [exact slashes_to_underscores_get|].
  split; [reflexivity|]. split; [discriminate|]. split; [exact Hsame|].
  intros h options digest w Hm. rewrite Hsame in Hm |- *.
  rewrite (getOrCreateDiskImage_hit h options ctx "a_b:t" digest w Hm). simpl.
  split; [reflexivity|]. rewrite execs_app. simpl. lia.
Qed.

Lemma cache_path_replaces_only_slashes_witness :
  let w := mkWorld {[ "/data/bootc-vmrun/a_b:t" :=
                        mkFile (Installed "a/b:t") 384
                          {[ imageMetaXattr := Ref.meta_open +:+ "sha256:aaa" +:+ Ref.meta_close ]} ]}
             ["1"; "2"] [] in
  meta_matches (w_fs w) (diskPathOf Ref.ctx "a/b:t") "sha256:aaa" /\
  fst (getOrCreateDiskImage (Ref.host Ref.quiet) Ref.noOptions Ref.ctx "a_b:t"
         "sha256:aaa" w)
  = Ok (diskPathOf Ref.ctx "a/b:t") /\
  String.get 1 (slashes_to_underscores "a/b:t") = Some "_"%char.
Proof.
  intros w.
  destruct (cache_path_replaces_only_slashes Ref.ctx)
    as (_ & _ & Hget & _ & _ & _ & Hshared).
  assert (Hm : meta_matches (w_fs w) (diskPathOf Ref.ctx "a/b:t") "sha256:aaa").
  { eexists _, _, _. split; [vm_compute; reflexivity|].
    split; [reflexivity|]. split; [vm_compute; reflexivity|].
    split; [vm_compute; discriminate|]. split; vm_compute; reflexivity. }
  split; [exact Hm|].
  split; [exact (proj1 (Hshared (Ref.host Ref.quiet) Ref.noOptions "sha256:aaa" w Hm))|].
  exact (Hget "a/b:t" 1%nat "/"%char eq_refl).
Defined.

(** * Further properties of the build, the cache and the backend *)

(** Lookups in a file system built from inserts, alters and deletes. *)
Ltac fs_lookup :=
  repeat (rewrite lookup_delete || rewrite lookup_alter || rewrite lookup_insert);
  repeat case_decide; subst; simpl; try congruence.

(** The events of the goal are explicit: at most one subprocess, with
    the arguments of the installer on the two files created first. *)
Ltac build_events :=
  split; [trace_ext|]; split; [simpl; lia|];
  split;
  [ let Hin := fresh "Hin" in
    intros ? Hin; simpl in Hin;
    repeat (destruct Hin as [Hin|Hin];
            [first [discriminate Hin
                   | injection Hin as <-;
                     eexists _, _, _, _, _;
                     split; [reflexivity|];
                     split; [intros ? Hc; simpl in Hc; intuition discriminate|];
                     split; [eassumption|]; split; [eassumption|];
                     split; [eassumption|]; split; [eassumption|];
                     split; [eassumption|];
                     unfold install_args, podmanRecurse;
                     destruct (String.eqb _ ""); reflexivity]|]);
    solve [destruct Hin]
  | ].

Section Build.
Context `{GoLib}.

Lemma createDiskImage_paths h options ctx imageName imageDigest targetDisk w :
  let out := createDiskImage h options ctx imageName imageDigest targetDisk w in
  exists evs,
    w_trace (snd out) = w_trace w ++ evs /\
    (execs evs <= 1)%nat /\
    (forall argv, In (EvExec argv) evs ->
       exists tmp entry r1 r2 rest,
         evs = EvCreate tmp :: EvCreate entry :: rest /\
         (forall p, ~ In (EvCreate p) rest) /\
         tmp = filepath_Join (cachedir ctx) ("podman-bootc-tempdisk" +:+ r1) /\
         entry = filepath_Join (cachedir ctx) ("entrypoint" +:+ r2) /\
         w_fs w !! tmp = None /\
         w_fs w !! entry = None /\
         tmp <> entry /\
         argv = podmanRecurse (cmd ctx) (install_args options tmp entry imageName)) /\
    (forall e, fst out = Err e ->
       forall k fl, w_fs w !! k = Some fl -> w_fs (snd out) !! k = Some fl) /\
    (fault h FtruncateDisk = None -> fault h PodmanRunInstall <> None ->
       (exists e, fst out = Err e) /\ w_fs (snd out) = w_fs w).
Proof.
  destruct w as [fs rand trace]. unfold createDiskImage. run.
  assert (Hclean : forall e : error,
            (forall e0 : error, @Err string e = Err e0 ->
               forall k fl, fs !! k = Some fl -> fs !! k = Some fl) /\
            (fault h FtruncateDisk = None -> fault h PodmanRunInstall <> None ->
               (exists e0, @Err string e = Err e0) /\ fs = fs)).
  { intros e. split; [done|]. intros _ _. split; [by eexists|done]. }
  split_on h CreateTempDisk; [exists []; build_events; apply Hclean|].
  destruct (pick_name fs _ _ rand) as [[tmp rand1]|] eqn:Htmp; run;
    [|exists []; build_events; apply Hclean].
  apply pick_name_spec in Htmp as (Htmp & skipped1 & r1 & _ & Htmpname).
  split_on h FtruncateDisk.
  { eexists. build_events.
    split; [intros e0 _ k fl Hk; fs_lookup|]. intros Hf. discriminate Hf. }
  split_on h CreateTempEntrypoint.
  { eexists. build_events.
    split; [intros e0 _ k fl Hk; fs_lookup|]. intros _ _. split; [by eexists|].
    apply map_eq. intros k. fs_lookup. }
  destruct (pick_name (alter _ tmp _) _ _ rand1) as [[entry rand2]|] eqn:Hentry; run.
  2:{ eexists. build_events.
    split; [intros e0 _ k fl Hk; fs_lookup|]. intros _ _. split; [by eexists|].
    apply map_eq. intros k. fs_lookup. }
  apply pick_name_spec in Hentry as (Hentry & skipped2 & r2 & _ & Hentryname).
  rewrite alter_insert_eq in Hentry.
  apply lookup_insert_None in Hentry as [Hentry Hne].
  split_on h CopyEntrypoint.
  { eexists. build_events.
    split; [intros e0 _ k fl Hk; fs_lookup|]. intros _ _. split; [by eexists|].
    apply map_eq. intros k. fs_lookup. }
  split_on h ChmodEntrypoint.
  { eexists. build_events.
    split; [intros e0 _ k fl Hk; fs_lookup|]. intros _ _. split; [by eexists|].
    apply map_eq. intros k. fs_lookup. }
  split_on h PodmanRunInstall.
  { eexists. build_events.
    split; [intros e0 _ k fl Hk; fs_lookup|]. intros _ _. split; [by eexists|].
    apply map_eq. intros k. fs_lookup. }
  destruct (json_Marshal _) as [buf|]; run.
  2:{ eexists. build_events.
    split; [intros e0 _ k fl Hk; fs_lookup|]. intros _ Hno. by destruct Hno. }
  split_on h FsetxattrMeta.
  { eexists. build_events.
    split; [intros e0 _ k fl Hk; fs_lookup|]. intros _ Hno. by destruct Hno. }
  split_on h RenameDisk.
  { eexists. build_events.
    split; [intros e0 _ k fl Hk; fs_lookup|]. intros _ Hno. by destruct Hno. }
  match goal with
  | |- context [match ?m !! tmp with _ => _ end] => destruct (m !! tmp)
  end; run.
  - eexists. build_events.
    split; [intros e0 He0; discriminate He0|]. intros _ Hno. by destruct Hno.
  - eexists. build_events.
    split; [intros e0 _ k fl Hk; fs_lookup|]. intros _ Hno. by destruct Hno.
Qed.
End Build.


(** X1.  A build that returns an error leaves every file that existed
    before it as it was: where it was, with its content, mode and
    metadata. *)
Theorem createDiskImage_error_keeps_files `{GoLib} h options ctx imageName imageDigest
    targetDisk w e w' :
  createDiskImage h options ctx imageName imageDigest targetDisk w = (Err e, w') ->
  forall k fl, w_fs w !! k = Some fl -> w_fs w' !! k = Some fl.
Proof.
  intros Hrun.
  destruct (createDiskImage_paths h options ctx imageName imageDigest targetDisk w)
    as (evs & _ & _ & _ & Hkeep & _).
  rewrite Hrun in Hkeep. exact (Hkeep e eq_refl).
Qed.

Lemma createDiskImage_error_keeps_files_witness :
  exists e w' fl,
    createDiskImage (Ref.host (Ref.failing RenameDisk (Errno EIO)))
      Ref.noOptions Ref.ctx Ref.image Ref.digest Ref.target Ref2.outdated
    = (Err e, w') /\
    w_fs Ref2.outdated !! Ref.target = Some fl /\
    w_fs w' !! Ref.target = Some fl.
Proof.
  assert (Hrun : exists e w',
            createDiskImage (Ref.host (Ref.failing RenameDisk (Errno EIO)))
              Ref.noOptions Ref.ctx Ref.image Ref.digest Ref.target Ref2.outdated
            = (Err e, w')).
  { eexists _, _. vm_compute. reflexivity. }
  destruct Hrun as (e & w' & Hrun).
  assert (Hfile : exists fl, w_fs Ref2.outdated !! Ref.target = Some fl).
  { eexists. vm_compute. reflexivity. }
  destruct Hfile as (fl & Hfl).
  exists e, w', fl. split; [exact Hrun|]. split; [exact Hfl|].
  exact (createDiskImage_error_keeps_files _ _ _ _ _ _ _ _ _ Hrun _ _ Hfl).
Defined.

(** X2.  On a host where sizing the temporary disk succeeds and the
    container run of the installer fails, the build returns an error and
    the file system is exactly as before: both temporary files are gone
    and nothing else was touched. *)
Theorem createDiskImage_failed_install_restores `{GoLib} h options ctx imageName
    imageDigest targetDisk w e0 :
  fault h FtruncateDisk = None ->
  fault h PodmanRunInstall = Some e0 ->
  (exists e, fst (createDiskImage h options ctx imageName imageDigest targetDisk w) = Err e)
  /\ w_fs (snd (createDiskImage h options ctx imageName imageDigest targetDisk w))
     = w_fs w.
Proof.
  intros Htrunc Hrun.
  destruct (createDiskImage_paths h options ctx imageName imageDigest targetDisk w)
    as (evs & _ & _ & _ & _ & Hrestore).
  apply Hrestore; [exact Htrunc|]. rewrite Hrun. discriminate.
Qed.

Lemma createDiskImage_failed_install_restores_witness :
  (exists e, fst (Ref.build (Ref.failing PodmanRunInstall (ExitError 125))) = Err e) /\
  w_fs (snd (Ref.build (Ref.failing PodmanRunInstall (ExitError 125)))) = w_fs Ref.world0.
Proof.
  exact (createDiskImage_failed_install_restores
           (Ref.host (Ref.failing PodmanRunInstall (ExitError 125)))
           Ref.noOptions Ref.ctx Ref.image Ref.digest Ref.target Ref.world0
           (ExitError 125) eq_refl eq_refl).
Defined.

(** X3.  Every build runs at most one subprocess.  When it runs one, the
    first two things the build did were to create two files, with fresh
    names in the cache directory: the temporary disk and then the
    temporary entrypoint, and it created no other file.  The subprocess
    is the container engine with the root's connection flag, the fixed
    run flags, the log-level variable exactly when a log level is set,
    that temporary disk mounted at /disk and that temporary entrypoint
    at /entrypoint, the image name, and the entrypoint run by bash on
    /disk. *)
Theorem createDiskImage_one_install_run `{GoLib} h options ctx imageName imageDigest
    targetDisk w :
  exists evs,
    w_trace (snd (createDiskImage h options ctx imageName imageDigest targetDisk w))
    = w_trace w ++ evs /\
    (execs evs <= 1)%nat /\
    forall argv, In (EvExec argv) evs ->
      exists tmp entry r1 r2 rest,
        evs = EvCreate tmp :: EvCreate entry :: rest /\
        (forall p, ~ In (EvCreate p) rest) /\
        tmp = filepath_Join (cachedir ctx) ("podman-bootc-tempdisk" +:+ r1) /\
        entry = filepath_Join (cachedir ctx) ("entrypoint" +:+ r2) /\
        w_fs w !! tmp = None /\
        w_fs w !! entry = None /\
        tmp <> entry /\
        argv = "podman" :: ("--connection=" +:+ connectionFlag (cmd ctx))
               :: ["run"; "--privileged"; "--pid=host"; "--rm"; "-i";
                   "--security-opt=label=type:unconfined_t"]
               ++ (if String.eqb (bootcLogLevel options) "" then []
                   else ["--env=RUST_LOG=" +:+ bootcLogLevel options])
               ++ ["-v"; tmp +:+ ":/disk"; "-v"; entry +:+ ":/entrypoint";
                   imageName; "/bin/bash"; "/entrypoint"; "/disk"].
Proof.
  destruct (createDiskImage_paths h options ctx imageName imageDigest targetDisk w)
    as (evs & Htr & Hex & Hargv & _).
  exists evs. split; [exact Htr|]. split; [exact Hex|].
  intros argv Hin.
  destruct (Hargv argv Hin)
    as (tmp & entry & r1 & r2 & rest & Hevs & Hno & Htmp & Hentry & Hf1 & Hf2 & Hne & ->).
  exists tmp, entry, r1, r2, rest.
  split; [exact Hevs|]. split; [exact Hno|]. split; [exact Htmp|].
  split; [exact Hentry|]. split; [exact Hf1|]. split; [exact Hf2|].
  split; [exact Hne|]. unfold podmanRecurse, install_args.
  destruct (String.eqb (bootcLogLevel options) ""); reflexivity.
Qed.

Lemma createDiskImage_one_install_run_witness :
  exists argv,
    In (EvExec argv) (w_trace (snd (Ref.build Ref.quiet))) /\
    argv = ["podman"; "--connection="; "run"; "--privileged"; "--pid=host"; "--rm"; "-i";
            "--security-opt=label=type:unconfined_t";
            "-v"; Ref.tempdisk1 +:+ ":/disk"; "-v"; Ref.entrypoint2 +:+ ":/entrypoint";
            Ref.image; "/bin/bash"; "/entrypoint"; "/disk"].
Proof.
  destruct (createDiskImage_one_install_run (Ref.host Ref.quiet) Ref.noOptions Ref.ctx
              Ref.image Ref.digest Ref.target Ref.world0) as (evs & Htr & _ & Hargv).
  assert (Hin : exists argv, In (EvExec argv) (w_trace (snd (Ref.build Ref.quiet)))).
  { eexists. vm_compute. do 4 right. left. reflexivity. }
  destruct Hin as (argv & Hin).
  exists argv. split; [exact Hin|].
  change (w_trace (snd (Ref.build Ref.quiet)) = w_trace Ref.world0 ++ evs) in Htr.
  simpl app in Htr. rewrite Htr in Hin.
  destruct (Hargv argv Hin)
    as (tmp & entry & r1 & r2 & rest & Hevs & _ & _ & _ & _ & _ & _ & ->).
  rewrite Hevs in Htr. vm_compute in Htr.
  injection Htr as <- <- _. vm_compute. reflexivity.
Defined.

Section Lookup.
Context `{GoLib}.

(** The three ways a lookup in the cache goes: the cache file cannot be
    opened; its metadata matches; or a build follows, after removing
    what is at the cache path when the metadata cannot be read. *)
Lemma getOrCreateDiskImage_route h options ctx imageName imageDigest w :
  let diskPath := diskPathOf ctx imageName in
  let out := getOrCreateDiskImage h options ctx imageName imageDigest w in
  (exists e, out = (Err e, w))
  \/ (meta_matches (w_fs w) diskPath imageDigest /\
      out = (Ok diskPath,
             emit (EvLog Debug "previous disk digest: %s current digest: %s" None) w))
  \/ (exists w0 evs0,
        out = createDiskImage h options ctx imageName imageDigest diskPath w0 /\
        w_trace w0 = w_trace w ++ evs0 /\ execs evs0 = O /\
        w_rand w0 = w_rand w /\
        ((meta_unreadable (w_fs w) diskPath /\ w_fs w0 = delete diskPath (w_fs w))
         \/ w_fs w0 = w_fs w)).
Proof.
  intros diskPath out. subst out.
  unfold getOrCreateDiskImage, os_Open, unix_Fgetxattr, meta_unreadable.
  fold diskPath. destruct w as [fs rand trace]. run.
  destruct (fs !! diskPath) as [fl|] eqn:Hfl; run.
  - destruct (Z.testbit (f_mode fl) 8) eqn:Hmode; run; [|left; by eexists].
    rewrite Hfl.
    destruct (f_xattr fl !! imageMetaXattr) as [v|] eqn:Hv; run.
    + destruct (Z.leb (Z.of_nat (String.length v)) 4096) eqn:Hlen; run.
      * destruct (json_Unmarshal v) as [m|e] eqn:Hparse; run.
        -- destruct (String.eqb (ImageDigest m) imageDigest) eqn:Hd; run.
           ++ right. left. split; [|done].
              exists fl, v, m. apply String.eqb_eq in Hd. apply Z.leb_le in Hlen.
              done.
           ++ right. right. eexists _, [_]. split; [reflexivity|]. simpl.
              repeat split; auto.
        -- right. right. eexists _, [_]. split; [reflexivity|]. simpl.
           repeat split; auto.
      * right. right. eexists _, [_]. split; [reflexivity|]. simpl.
        repeat split; auto. left. split; [|done]. apply Z.leb_gt in Hlen. lia.
    + right. right. eexists _, [_]. split; [reflexivity|]. simpl.
      repeat split; auto.
  - right. right. eexists _, [_]. split; [reflexivity|]. simpl.
    repeat split; auto.
Qed.

End Lookup.

(** X4.  Every call of getOrCreateDiskImage, whatever its outcome, runs
    at most one subprocess. *)
Theorem getOrCreateDiskImage_at_most_one_run `{GoLib} h options ctx imageName
    imageDigest w :
  (execs (w_trace (snd (getOrCreateDiskImage h options ctx imageName imageDigest w)))
   <= execs (w_trace w) + 1)%nat.
Proof.
  destruct (getOrCreateDiskImage_route h options ctx imageName imageDigest w)
    as [(e & ->)|[(_ & ->)|(w0 & evs0 & -> & Htr0 & Hex0 & _)]].
  - simpl. lia.
  - simpl. rewrite execs_app. simpl. lia.
  - destruct (createDiskImage_paths h options ctx imageName imageDigest
                (diskPathOf ctx imageName) w0) as (evs & Htr & Hex & _).
    rewrite Htr, Htr0, !execs_app, Hex0. lia.
Qed.

(** X5.  A call of getOrCreateDiskImage that returns an error leaves
    every other file than the cache file of the image as it was; and
    when the metadata of the cache file could be read, the cache file
    too. *)
Theorem getOrCreateDiskImage_error_keeps_files `{GoLib} h options ctx imageName
    imageDigest w e w' :
  getOrCreateDiskImage h options ctx imageName imageDigest w = (Err e, w') ->
  forall k fl, w_fs w !! k = Some fl ->
    (k <> diskPathOf ctx imageName \/ ~ meta_unreadable (w_fs w) (diskPathOf ctx imageName)) ->
    w_fs w' !! k = Some fl.
Proof.
  intros Hrun k fl Hk Hcase.
  destruct (getOrCreateDiskImage_route h options ctx imageName imageDigest w)
    as [(e1 & Hout)|[(_ & Hout)|(w0 & evs0 & Hout & _ & _ & _ & Hfs0)]];
    rewrite Hrun in Hout.
  - by injection Hout as _ ->.
  - discriminate Hout.
  - symmetry in Hout.
    destruct (createDiskImage_paths h options ctx imageName imageDigest
                (diskPathOf ctx imageName) w0) as (evs & _ & _ & _ & Hkeep & _).
    rewrite Hout in Hkeep. apply (Hkeep e eq_refl).
    destruct Hfs0 as [[Hunread ->]| ->]; [|done].
    destruct Hcase as [Hne|Hread]; [|by destruct Hread].
    by rewrite lookup_delete_ne.
Qed.

Lemma getOrCreateDiskImage_error_keeps_files_witness :
  exists e w' fl,
    Ref.lookup (Ref.failing PodmanRunInstall (ExitError 1)) Ref.image Ref.digest
      Ref2.outdated = (Err e, w') /\
    w_fs Ref2.outdated !! Ref.target = Some fl /\
    w_fs w' !! Ref.target = Some fl.
Proof.
  assert (Hrun : exists e w',
            getOrCreateDiskImage (Ref.host (Ref.failing PodmanRunInstall (ExitError 1)))
              Ref.noOptions Ref.ctx Ref.image Ref.digest Ref2.outdated = (Err e, w')).
  { eexists _, _. vm_compute. reflexivity. }
  destruct Hrun as (e & w' & Hrun).
  assert (Hfile : exists fl, w_fs Ref2.outdated !! Ref.target = Some fl).
  { eexists. vm_compute. reflexivity. }
  destruct Hfile as (fl & Hfl).
  exists e, w', fl. split; [exact Hrun|]. split; [exact Hfl|].
  apply (getOrCreateDiskImage_error_keeps_files _ _ _ _ _ _ _ _ Hrun _ _ Hfl).
  right. vm_compute. discriminate.
Defined.

(** X6.  A call of getOrCreateDiskImage that succeeds changes no file
    but the cache file of the image: every other path holds after the
    call what it held before, and no temporary file is left. *)
Theorem getOrCreateDiskImage_success_frame `{GoLib} h options ctx imageName
    imageDigest w p w' :
  getOrCreateDiskImage h options ctx imageName imageDigest w = (Ok p, w') ->
  forall k, k <> diskPathOf ctx imageName -> w_fs w' !! k = w_fs w !! k.
Proof.
  intros Hrun k Hk.
  destruct (getOrCreateDiskImage_route h options ctx imageName imageDigest w)
    as [(e1 & Hout)|[(_ & Hout)|(w0 & evs0 & Hout & _ & _ & _ & Hfs0)]];
    rewrite Hrun in Hout.
  - discriminate Hout.
  - by injection Hout as _ ->.
  - symmetry in Hout.
    apply createDiskImage_Ok in Hout
      as (tmp & entry & buf & argv & _ & _ & _ & Hentry & _ & _ & -> & _).
    assert (Hk0 : w_fs w0 !! k = w_fs w !! k).
    { destruct Hfs0 as [[_ ->]| ->]; [|done]. by rewrite lookup_delete_ne. }
    rewrite lookup_delete. case_decide as Hke.
    + subst k. by rewrite <- Hk0, Hentry.
    + by rewrite lookup_insert_ne.
Qed.

Lemma getOrCreateDiskImage_success_frame_witness :
  exists p w',
    Ref.lookup Ref.quiet Ref.image Ref.digest Ref2.outdated = (Ok p, w') /\
    w_fs w' !! Ref.tempdisk1 = None /\ w_fs w' !! Ref.entrypoint2 = None.
Proof.
  assert (Hrun : exists p w',
            getOrCreateDiskImage (Ref.host Ref.quiet) Ref.noOptions Ref.ctx Ref.image
              Ref.digest Ref2.outdated = (Ok p, w')).
  { eexists _, _. vm_compute. reflexivity. }
  destruct Hrun as (p & w' & Hrun).
  exists p, w'. split; [exact Hrun|].
  split.
  - rewrite (getOrCreateDiskImage_success_frame _ _ _ _ _ _ _ _ Hrun Ref.tempdisk1);
      [reflexivity|discriminate].
  - rewrite (getOrCreateDiskImage_success_frame _ _ _ _ _ _ _ _ Hrun Ref.entrypoint2);
      [reflexivity|discriminate].
Defined.

(** X7.  When the cache file carries readable metadata for another
    digest, the call goes on to the build without removing the file
    first.  If it then succeeds and the temporary entrypoint was not
    created under the name of the cache file, it has run exactly one
    subprocess and the cache file carries the record of the requested
    digest. *)
Theorem getOrCreateDiskImage_digest_change `{GoLib} h options ctx imageName
    imageDigest w :
  let diskPath := diskPathOf ctx imageName in
  meta_stale (w_fs w) diskPath imageDigest ->
  getOrCreateDiskImage h options ctx imageName imageDigest w
  = createDiskImage h options ctx imageName imageDigest diskPath
      (emit (EvLog Debug "previous disk digest: %s current digest: %s" None) w)
  /\
  forall p w',
    getOrCreateDiskImage h options ctx imageName imageDigest w = (Ok p, w') ->
    entrypoint_apart ctx diskPath (w_rand w) ->
    execs (w_trace w') = S (execs (w_trace w)) /\
    exists buf fl,
      json_Marshal (mkMeta imageDigest) = Ok buf /\
      w_fs w' !! diskPath = Some fl /\
      f_xattr fl !! imageMetaXattr = Some buf /\
      f_data fl = Installed imageName.
Proof.
  intros diskPath (fl & v & m & Hfl & Hmode & Hv & Hlen & Hparse & Hd).
  assert (Hroute : getOrCreateDiskImage h options ctx imageName imageDigest w
                   = createDiskImage h options ctx imageName imageDigest diskPath
                       (emit (EvLog Debug "previous disk digest: %s current digest: %s"
                                None) w)).
  { unfold getOrCreateDiskImage, os_Open, unix_Fgetxattr. fold diskPath. run.
    rewrite Hfl, Hmode. run. rewrite Hfl, Hv.
    apply Z.leb_le in Hlen. rewrite Hlen, Hparse.
    apply String.eqb_neq in Hd. rewrite Hd. reflexivity. }
  split; [exact Hroute|].
  intros p w' Hrun Hapart. rewrite Hroute in Hrun.
  apply createDiskImage_Ok in Hrun
    as (tmp & entry & buf & argv & Hbuf & _ & _ & _ & _ & (r & Hr & ->) & Hfs & Htr).
  split.
  - rewrite Htr. simpl. rewrite !execs_app. simpl. lia.
  - exists buf, (mkFile (Installed imageName) 384 {[imageMetaXattr := buf]}).
    split; [exact Hbuf|]. rewrite Hfs.
    rewrite lookup_delete_ne by (apply Hapart; exact Hr).
    rewrite lookup_insert_eq. simpl. rewrite lookup_singleton_eq. done.
Qed.

Lemma getOrCreateDiskImage_digest_change_witness :
  meta_stale (w_fs Ref2.outdated) (diskPathOf Ref.ctx Ref.image) Ref.digest /\
  entrypoint_apart Ref.ctx (diskPathOf Ref.ctx Ref.image) (w_rand Ref2.outdated) /\
  exists p w' buf fl,
    getOrCreateDiskImage (Ref.host Ref.quiet) Ref.noOptions Ref.ctx Ref.image Ref.digest
      Ref2.outdated = (Ok p, w') /\
    execs (w_trace w') = S (execs (w_trace Ref2.outdated)) /\
    json_Marshal (mkMeta Ref.digest) = Ok buf /\
    w_fs w' !! diskPathOf Ref.ctx Ref.image = Some fl /\
    f_xattr fl !! imageMetaXattr = Some buf.
Proof.
  assert (Hstale : meta_stale (w_fs Ref2.outdated) (diskPathOf Ref.ctx Ref.image)
                     Ref.digest).
  { eexists _, _, _. split; [vm_compute; reflexivity|].
    split; [reflexivity|]. split; [vm_compute; reflexivity|].
    split; [vm_compute; discriminate|]. split; [vm_compute; reflexivity|].
    vm_compute. discriminate. }
  assert (Hapart : entrypoint_apart Ref.ctx (diskPathOf Ref.ctx Ref.image)
                     (w_rand Ref2.outdated)).
  { intros r Hr. vm_compute in Hr. vm_compute.
    destruct Hr as [<-|[<-|[<-|[<-|[]]]]]; discriminate. }
  assert (Hrun : exists p w',
            getOrCreateDiskImage (Ref.host Ref.quiet) Ref.noOptions Ref.ctx Ref.image
              Ref.digest Ref2.outdated = (Ok p, w')).
  { eexists _, _. vm_compute. reflexivity. }
  destruct Hrun as (p & w' & Hrun).
  split; [exact Hstale|]. split; [exact Hapart|].
  destruct (proj2 (getOrCreateDiskImage_digest_change (Ref.host Ref.quiet) Ref.noOptions
                     Ref.ctx Ref.image Ref.digest Ref2.outdated Hstale)
              p w' Hrun Hapart) as (Hex & buf & fl & Hbuf & Hfl & Hx & _).
  exists p, w', buf, fl.
  split; [exact Hrun|]. split; [exact Hex|]. split; [exact Hbuf|].
  split; [exact Hfl|exact Hx].
Defined.


(** ** More on the cache file name *)






(** ** More on the command *)

Section CommandOutcome.
Context `{GoLib}.

(** Every run of the command: an error before SpawnTransient is called,
    or the result of the one call, followed by the removal of the clone.
    The clone is the file created next to the disk and written by cp,
    right before the call; it then holds what the disk holds. *)
Lemma vmrun_outcome h options provider cmd args w :
  let out := vmrun h options provider cmd args w in
  let ctx := mkCtx cmd (filepath_Join (globalDataDir h) vmrunCacheDir) in
  (exists e, fst out = Err e /\ spawns (w_trace (snd out)) = spawns (w_trace w))
  \/ exists imageName rest clone w0,
       args = imageName :: rest /\
       spawns (w_trace w0) = spawns (w_trace w) ++
         [{| Cpus := 2; MemoryMiB := 2048; Disk := diskPathOf ctx imageName;
             Gui := true; VMDebug := vmDebug options |}] /\
       (exists r before,
          clone = filepath_Join (filepath_Dir (diskPathOf ctx imageName))
                    ("bootc-vmrun" +:+ r) /\
          w_trace w0 = before ++
            [EvStdout ("generated " +:+ diskPathOf ctx imageName +:+ nl);
             EvCreate clone;
             EvExec ["cp"; "-fc"; diskPathOf ctx imageName; clone];
             EvSpawnTransient
               {| Cpus := 2; MemoryMiB := 2048; Disk := diskPathOf ctx imageName;
                  Gui := true; VMDebug := vmDebug options |}] /\
          (forall fl, w_fs w0 !! diskPathOf ctx imageName = Some fl ->
                      w_fs w0 !! clone = Some fl)) /\
       out = (fst (SpawnTransient provider
                     {| Cpus := 2; MemoryMiB := 2048; Disk := diskPathOf ctx imageName;
                        Gui := true; VMDebug := vmDebug options |} w0),
              os_Remove clone
                (snd (SpawnTransient provider
                        {| Cpus := 2; MemoryMiB := 2048;
                           Disk := diskPathOf ctx imageName;
                           Gui := true; VMDebug := vmDebug options |} w0))).
Proof.
  destruct w as [fs rand trace]. unfold vmrun. run.
  split_on h PersistentPreRunE; [left; eexists; split; [reflexivity|same_spawns]|].
  split_on h GetGlobalDataDir; [left; eexists; split; [reflexivity|same_spawns]|].
  split_on h MkdirAllCache; [left; eexists; split; [reflexivity|same_spawns]|].
  destruct args as [|imageName rest]; run;
    [left; eexists; split; [reflexivity|same_spawns]|].
  split_on h InspectProbe;
    [split_on h PodmanPull; [left; eexists; split; [reflexivity|same_spawns]|]|].
  all: split_on h InspectDigest; [left; eexists; split; [reflexivity|same_spawns]|].
  all: match goal with
       | |- context [getOrCreateDiskImage ?a ?b ?c ?d ?e ?w0] =>
           pose proof (getOrCreateDiskImage_spawns a b c d e w0) as Hsp;
           pose proof (getOrCreateDiskImage_path a b c d e w0) as Hpath;
           destruct (getOrCreateDiskImage a b c d e w0)
             as [[disk|err] [fs1 rand1 trace1]]
       end; run; [|left; eexists; split; [reflexivity|rewrite Hsp; same_spawns]].
  all: specialize (Hpath _ _ eq_refl); subst disk.
  all: split_on h CreateTempClone;
         [left; eexists; split; [reflexivity|rewrite ?spawns_app, Hsp; same_spawns]|].
  all: destruct (pick_name fs1 _ _ rand1) as [[clone rand2]|] eqn:Hclone; run;
         [|left; eexists; split; [reflexivity|rewrite ?spawns_app, Hsp; same_spawns]].
  all: apply pick_name_spec in Hclone as (_ & skipped & r & _ & Hname).
  all: unfold cp_clone; run.
  all: split_on h CpClone;
         [left; eexists; split; [reflexivity|rewrite ?spawns_app, Hsp; same_spawns]|].
  all: match goal with
       | |- context [match ?m !! ?k with _ => _ end] => destruct (m !! k) eqn:Hdisk
       end; run.
  all: split_on h ProviderGet;
         [left; eexists; split; [reflexivity|rewrite ?spawns_app, Hsp; same_spawns]|].
  all: right; exists imageName, rest, clone; eexists; split; [reflexivity|].
  all: split; [|split];
         [ | | match goal with
               | |- context [SpawnTransient ?p ?o ?w0] =>
                   destruct (SpawnTransient p o w0) as [r' [fs2 rand3 trace2]] eqn:Hst
               end; simpl; rewrite Hst; reflexivity ].
  all: try (simpl; rewrite ?spawns_app, ?Hsp, ?spawns_app; simpl;
            rewrite ?app_nil_r; reflexivity).
  all: exists r, trace1; split; [exact Hname|];
         split; [simpl; rewrite <- ?app_assoc; reflexivity|];
         intros fl Hfl; simpl in Hfl |- *.
  all: try (rewrite Hdisk in Hfl; discriminate Hfl).
  all: rewrite lookup_insert_eq;
         destruct (decide (clone = diskPathOf
                     (mkCtx cmd (filepath_Join (globalDataDir h) vmrunCacheDir))
                     imageName)) as [Heq|Hne];
         [ rewrite <- Heq in Hfl; rewrite lookup_insert_eq in Hfl; exact Hfl
         | rewrite lookup_insert_ne in Hfl by exact Hne;
           rewrite Hdisk in Hfl; exact Hfl ].
Qed.

End CommandOutcome.

(** X9.  With a provider that does not itself spawn, the command
    returns success only after exactly one call of SpawnTransient, on
    the cache file of the image.  Right before that call it created a
    fresh file next to the disk, its clone, and ran cp from the disk to
    the clone, so that the clone holds what the disk holds when the
    provider is called; and after the call the last thing the command
    does is to remove that clone, which is gone. *)
Theorem vmrun_success_after_one_spawn `{GoLib} h options provider cmd args w w' :
  silent provider ->
  vmrun h options provider cmd args w = (Ok tt, w') ->
  exists imageName rest clone r w0 before,
    let disk := diskPathOf (mkCtx cmd (filepath_Join (globalDataDir h) vmrunCacheDir))
                  imageName in
    let spawnopts := {| Cpus := 2; MemoryMiB := 2048; Disk := disk;
                        Gui := true; VMDebug := vmDebug options |} in
    args = imageName :: rest /\
    clone = filepath_Join (filepath_Dir disk) ("bootc-vmrun" +:+ r) /\
    w_trace w0 = before ++
      [EvStdout ("generated " +:+ disk +:+ nl);
       EvCreate clone;
       EvExec ["cp"; "-fc"; disk; clone];
       EvSpawnTransient spawnopts] /\
    (forall fl, w_fs w0 !! disk = Some fl -> w_fs w0 !! clone = Some fl) /\
    w' = os_Remove clone (snd (SpawnTransient provider spawnopts w0)) /\
    spawns (w_trace w') = spawns (w_trace w) ++ [spawnopts] /\
    last (w_trace w') = Some (EvRemove clone) /\
    w_fs w' !! clone = None.
Proof.
  intros Hsilent Hrun.
  destruct (vmrun_outcome h options provider cmd args w)
    as [(e & He & _)
       |(imageName & rest & clone & w0 & Hargs & Hsp & Hclone & Hout)].
  - rewrite Hrun in He. discriminate He.
  - destruct Hclone as (r & before & Hname & Htr & Hcopy).
    rewrite Hrun in Hout. injection Hout as _ ->.
    exists imageName, rest, clone, r, w0, before. simpl.
    split; [exact Hargs|]. split; [exact Hname|]. split; [exact Htr|].
    split; [exact Hcopy|]. split; [reflexivity|].
    unfold os_Remove, emit, set_fs. simpl.
    split; [by rewrite spawns_app, Hsilent, Hsp, app_nil_r|].
    split; [apply last_snoc|apply lookup_delete_eq].
Qed.

Lemma vmrun_success_after_one_spawn_witness :
  silent (AppleHV.VirtualizationProvider (Ref.host Ref.quiet)) /\
  fst (Ref.command Ref.noOptions) = Ok tt /\
  spawns (w_trace (snd (Ref.command Ref.noOptions)))
  = [mkSpawnTransientOpts 2 2048 Ref.target true false] /\
  last (w_trace (snd (Ref.command Ref.noOptions))) = Some (EvRemove Ref.clone3) /\
  w_fs (snd (Ref.command Ref.noOptions)) !! Ref.clone3 = None /\
  exists w0 before,
    w_trace w0 = before ++
      [EvStdout ("generated " +:+ Ref.target +:+ nl);
       EvCreate Ref.clone3;
       EvExec ["cp"; "-fc"; Ref.target; Ref.clone3];
       EvSpawnTransient (mkSpawnTransientOpts 2 2048 Ref.target true false)] /\
    snd (Ref.command Ref.noOptions)
    = os_Remove Ref.clone3
        (snd (SpawnTransient (AppleHV.VirtualizationProvider (Ref.host Ref.quiet))
                (mkSpawnTransientOpts 2 2048 Ref.target true false) w0)).
Proof.
  assert (Hrun : vmrun (Ref.host Ref.quiet) Ref.noOptions
                   (AppleHV.VirtualizationProvider (Ref.host Ref.quiet))
                   (mkCommand "") [Ref.image] Ref.world0
                 = (Ok tt, snd (Ref.command Ref.noOptions)))
    by (vm_compute; reflexivity).
  destruct (vmrun_success_after_one_spawn _ _ _ _ _ _ _
              (AppleHV_silent (Ref.host Ref.quiet)) Hrun)
    as (imageName & rest & clone & r & w0 & before
        & Hargs & _ & Htr & _ & Hw' & Hsp & Hlast & Hgone).
  injection Hargs as <- <-.
  assert (Hclone : clone = Ref.clone3).
  { assert (Hl : last (w_trace (snd (Ref.command Ref.noOptions)))
                 = Some (EvRemove Ref.clone3)) by (vm_compute; reflexivity).
    rewrite Hl in Hlast. by injection Hlast. }
  subst clone.
  split; [apply AppleHV_silent|]. split; [vm_compute; reflexivity|].
  split; [exact Hsp|]. split; [exact Hlast|]. split; [exact Hgone|].
  exists w0, before. split; [exact Htr|exact Hw'].
Defined.




(** ** More on launching a transient machine *)

(** The events of the goal end with the removal of the directory. *)
Ltac ends_with_removal :=
  first [ exists []; reflexivity | eexists [_]; reflexivity
        | eexists [_; _]; reflexivity | eexists [_; _; _]; reflexivity
        | eexists [_; _; _; _]; reflexivity | eexists [_; _; _; _; _]; reflexivity ].

(** A return of SpawnTransient before the hypervisor is run, after the
    temporary directory was made. *)
Ltac early_exit :=
  eexists; split; [trace_ext|]; split;
  [ intros a Hin; simpl in Hin; intuition discriminate |];
  split; [intros Hok; discriminate Hok|];
  intros _ _ r0 rest0 Hr; injection Hr as <- <-; ends_with_removal.

#[local] Opaque VfConfig.ToCmdLine.

Lemma SpawnTransient_paths `{GoLib} h opts w :
  let out := AppleHV.SpawnTransient h opts w in
  exists evs,
    w_trace (snd out) = w_trace w ++ evs /\
    (forall argv, In (EvExec argv) evs ->
       exists vm,
         argv = vfkitHelper h :: VfConfig.ToCmdLine vm ++ transient_flags opts /\
         Vcpus vm = AppleHV.uint64 (Cpus opts) /\
         Memory vm = AppleHV.uint64 (MemoryMiB opts) /\
         createVariableStore (VMBootloader vm) = true /\
         Devices vm = expected_devices opts) /\
    (fst out = Ok tt -> exists argv, In (EvExec argv) evs) /\
    (fault h ConfigDefault = None -> fault h MkdirTemp = None ->
     forall r rest, w_rand w = r :: rest ->
       exists before,
         evs = before ++
               [EvRemoveAll (filepath_Join (tempDir h) ("podman-machine-applehv-" +:+ r))]).
Proof.
  destruct w as [fs rand trace].
  unfold AppleHV.SpawnTransient, expected_devices, transient_flags.
  run_hv.
  split_at h ConfigDefault.
  { exists []. split; [trace_ext|]. split; [intros ? []|].
    split; [intros Hok; discriminate Hok|]. intros Hno. discriminate Hno. }
  split_at h MkdirTemp.
  { exists []. split; [trace_ext|]. split; [intros ? []|].
    split; [intros Hok; discriminate Hok|]. intros _ Hno. discriminate Hno. }
  destruct rand as [|r rand]; run_hv.
  { exists []. split; [trace_ext|]. split; [intros ? []|].
    split; [intros Hok; discriminate Hok|]. intros _ _ r0 rest0 Hr. discriminate Hr. }
  split_at h MkdirAllEfi; [early_exit|].
  split_at h FindHelperBinary; [early_exit|].
  split_at h AtVirtioRngNew; [early_exit|].
  split_at h AtVirtioBlkNew; [early_exit|].
  destruct (Gui opts) eqn:Hgui; run_hv.
  - split_at h AtVirtioGPUNew; [early_exit|].
    split_at h AtVirtioInputNewPointing; [early_exit|].
    split_at h AtVirtioInputNewKeyboard; [early_exit|].
    split_at h VmconfigCmd; [early_exit|].
    destruct (VMDebug opts); destruct (fault h VfkitRun); run_hv.
    all: eexists; split; [trace_ext|]; split;
      [ intros a Hin; simpl in Hin;
        repeat (destruct Hin as [Hin|Hin];
                [first [discriminate Hin
                       | injection Hin as <-; eexists (mkVirtualMachine _ _ _ _);
                         split; [rewrite <- ?app_assoc; reflexivity|];
                         repeat split; reflexivity]|]);
        solve [destruct Hin]
      |];
      split; [intros _; eexists; simpl; do 3 right; left; reflexivity|];
      intros _ _ r0 rest0 Hr; injection Hr as <- <-; ends_with_removal.
  - split_at h AtVirtioSerialNewStdio; [early_exit|].
    split_at h VmconfigCmd; [early_exit|].
    destruct (VMDebug opts); destruct (fault h VfkitRun); run_hv.
    all: eexists; split; [trace_ext|]; split;
      [ intros a Hin; simpl in Hin;
        repeat (destruct Hin as [Hin|Hin];
                [first [discriminate Hin
                       | injection Hin as <-; eexists (mkVirtualMachine _ _ _ _);
                         split; [rewrite <- ?app_assoc; reflexivity|];
                         repeat split; reflexivity]|]);
        solve [destruct Hin]
      |];
      split; [intros _; eexists; simpl; do 3 right; left; reflexivity|];
      intros _ _ r0 rest0 Hr; injection Hr as <- <-; ends_with_removal.
Qed.

#[local] Transparent VfConfig.ToCmdLine.

(** X11.  Whenever SpawnTransient of the applehv backend runs the
    hypervisor, the command line is the helper binary, the arguments of
    the machine configuration, and then: the flag that disables the
    REST endpoint, always; the GUI flag exactly in GUI mode; the debug
    log level exactly when debugging is asked for.  The configuration
    has the CPUs and memory of the options and an EFI variable store
    that is created. *)
Theorem SpawnTransient_command_line `{GoLib} h opts w evs argv :
  w_trace (snd (AppleHV.SpawnTransient h opts w)) = w_trace w ++ evs ->
  In (EvExec argv) evs ->
  exists vm,
    argv = vfkitHelper h :: VfConfig.ToCmdLine vm
           ++ ["--restful-uri=none://"]
           ++ (if Gui opts then ["--gui"] else [])
           ++ (if VMDebug opts then ["--log-level"; "debug"] else []) /\
    Vcpus vm = Cpus opts mod 2 ^ 64 /\
    Memory vm = MemoryMiB opts mod 2 ^ 64 /\
    createVariableStore (VMBootloader vm) = true.
Proof.
  intros Htr Hin.
  destruct (SpawnTransient_paths h opts w) as (evs' & Htr' & Hargv & _).
  rewrite Htr' in Htr. apply app_inv_head in Htr. subst evs'.
  destruct (Hargv argv Hin) as (vm & -> & Hcpu & Hmem & Hstore & _).
  exists vm. done.
Qed.

Lemma SpawnTransient_command_line_witness :
  exists argv vm,
    In (EvExec argv)
       (w_trace (snd (AppleHV.SpawnTransient (Ref.host Ref.quiet) Ref.headless_opts
                        Ref.world0))) /\
    argv = "/opt/podman/bin/vfkit" :: VfConfig.ToCmdLine vm ++ ["--restful-uri=none://"] /\
    Vcpus vm = 2.
Proof.
  assert (Hin : exists argv,
            In (EvExec argv)
               (w_trace (snd (AppleHV.SpawnTransient (Ref.host Ref.quiet)
                                Ref.headless_opts Ref.world0)))).
  { eexists. vm_compute. do 3 right. left. reflexivity. }
  destruct Hin as (argv & Hin).
  destruct (SpawnTransient_command_line (Ref.host Ref.quiet) Ref.headless_opts
              Ref.world0 _ argv eq_refl Hin) as (vm & Hargv & Hcpu & _).
  exists argv, vm. split; [exact Hin|]. split; [exact Hargv|exact Hcpu].
Defined.

(** X12.  Once SpawnTransient of the applehv backend has made its
    temporary directory, removing that directory is the last thing it
    does, on every return: after an error of a later step as well as
    after the hypervisor has run. *)
Theorem SpawnTransient_removes_tempdir `{GoLib} h opts w r rest :
  fault h ConfigDefault = None ->
  fault h MkdirTemp = None ->
  w_rand w = r :: rest ->
  last (w_trace (snd (AppleHV.SpawnTransient h opts w)))
  = Some (EvRemoveAll (filepath_Join (tempDir h) ("podman-machine-applehv-" +:+ r))).
Proof.
  intros Hcfg Hmk Hrand.
  destruct (SpawnTransient_paths h opts w) as (evs & Htr & _ & _ & Hlast).
  destruct (Hlast Hcfg Hmk r rest Hrand) as (before & ->).
  rewrite Htr, app_assoc. apply last_snoc.
Qed.

Lemma SpawnTransient_removes_tempdir_witness :
  let out := AppleHV.SpawnTransient (Ref.host (Ref.failing AtVirtioBlkNew (Errno EIO)))
               Ref.gui_opts Ref.world0 in
  fst out = Err (Errno EIO) /\
  last (w_trace (snd out)) = Some (EvRemoveAll "/tmp/podman-machine-applehv-1").
Proof.
  split; [vm_compute; reflexivity|].
  exact (SpawnTransient_removes_tempdir (Ref.host (Ref.failing AtVirtioBlkNew (Errno EIO)))
           Ref.gui_opts Ref.world0 "1" ["2"; "3"; "4"] eq_refl eq_refl eq_refl).
Defined.

(** X13.  With the applehv provider, a run of the command that returns
    success has run the hypervisor: on a machine with 2 CPUs and 2048
    MiB whose devices are entropy, the cache file of the image as disk,
    graphics, pointer and keyboard, with the REST endpoint disabled and
    the GUI flag, and with the debug log level exactly when the command
    was given the debug option. *)
Theorem vmrun_applehv_success_ran_hypervisor `{GoLib} h hv options cmd args w w' :
  vmrun h options (AppleHV.VirtualizationProvider hv) cmd args w = (Ok tt, w') ->
  exists imageName rest vm,
    args = imageName :: rest /\
    In (EvExec (vfkitHelper hv :: VfConfig.ToCmdLine vm
                ++ ["--restful-uri=none://"; "--gui"]
                ++ (if vmDebug options then ["--log-level"; "debug"] else [])))
       (w_trace w') /\
    Vcpus vm = 2 /\ Memory vm = 2048 /\
    Devices vm = gui_devices
                   (diskPathOf (mkCtx cmd (filepath_Join (globalDataDir h) vmrunCacheDir))
                      imageName).
Proof.
  intros Hrun.
  destruct (vmrun_outcome h options (AppleHV.VirtualizationProvider hv) cmd args w)
    as [(e & He & _)|(imageName & rest & clone & w0 & Hargs & _ & _ & Hout)].
  { rewrite Hrun in He. discriminate He. }
  rewrite Hrun in Hout. simpl in Hout. injection Hout as Hok ->.
  match type of Hok with
  | _ = fst (AppleHV.SpawnTransient hv ?o w0) =>
      destruct (SpawnTransient_paths hv o w0) as (evs & Htr & Hargv & Hran & _)
  end.
  destruct (Hran (eq_sym Hok)) as (argv & Hin).
  destruct (Hargv argv Hin) as (vm & -> & Hcpu & Hmem & _ & Hdev).
  exists imageName, rest, vm. split; [exact Hargs|].
  split; [|split; [exact Hcpu|split; [exact Hmem|exact Hdev]]].
  unfold os_Remove, emit, set_fs. simpl. rewrite Htr.
  rewrite !in_app_iff. left. right. exact Hin.
Qed.

Lemma vmrun_applehv_success_ran_hypervisor_witness :
  exists vm,
    In (EvExec ("/opt/podman/bin/vfkit" :: VfConfig.ToCmdLine vm
                ++ ["--restful-uri=none://"; "--gui"; "--log-level"; "debug"]))
       (w_trace (snd (Ref.command Ref.debugOptions))) /\
    Devices vm = gui_devices Ref.target.
Proof.
  assert (Hrun : vmrun (Ref.host Ref.quiet) Ref.debugOptions
                   (AppleHV.VirtualizationProvider (Ref.host Ref.quiet))
                   (mkCommand "") [Ref.image] Ref.world0
                 = (Ok tt, snd (Ref.command Ref.debugOptions)))
    by (vm_compute; reflexivity).
  destruct (vmrun_applehv_success_ran_hypervisor _ _ _ _ _ _ _ Hrun)
    as (imageName & rest & vm & Hargs & Hin & _ & _ & Hdev).
  injection Hargs as <- <-.
  exists vm. split; [exact Hin|exact Hdev].
Defined.


(** ** The device lists of the applehv backend *)

(** X14.  getDefaultDevices and getDebugDevices return either the error
    of the first device constructor that fails, in the order entropy,
    disk, serial log, ready socket (graphics, pointer, keyboard for the
    debug devices), or the complete list in that order; never a partial
    list.  The ready socket listens on port 1025. *)
Theorem device_lists_complete_or_first_error h imagePath logPath readyPath w :
  AppleHV.getDefaultDevices h imagePath logPath readyPath w
  = (match first_fault h [AtVirtioRngNew; AtVirtioBlkNew; AtVirtioSerialNew;
                          AtVirtioVsockNew] with
     | Some e => Err e
     | None => Ok [VirtioRng; VirtioBlk imagePath; VirtioSerialFile logPath;
                   VirtioVsock 1025 readyPath true]
     end, w)
  /\
  AppleHV.getDebugDevices h w
  = (match first_fault h [AtVirtioGPUNew; AtVirtioInputNewPointing;
                          AtVirtioInputNewKeyboard] with
     | Some e => Err e
     | None => Ok [VirtioGPU; VirtioInput VirtioInputPointingDevice;
                   VirtioInput VirtioInputKeyboardDevice]
     end, w).
Proof.
  split.
  - unfold AppleHV.getDefaultDevices, VfConfig.VirtioSerialNew, VfConfig.VirtioVsockNew,
      first_fault.
    run_hv.
    destruct (fault h AtVirtioRngNew); run_hv; [reflexivity|].
    destruct (fault h AtVirtioBlkNew); run_hv; [reflexivity|].
    destruct (fault h AtVirtioSerialNew); run_hv; [reflexivity|].
    destruct (fault h AtVirtioVsockNew); run_hv; reflexivity.
  - unfold first_fault. run_hv.
    destruct (fault h AtVirtioGPUNew); run_hv; [reflexivity|].
    destruct (fault h AtVirtioInputNewPointing); run_hv; [reflexivity|].
    destruct (fault h AtVirtioInputNewKeyboard); run_hv; reflexivity.
Qed.

(** ** Loading the persisted machines *)

Lemma walk_Ok entries : forall acc files,
  AppleHV.walk entries acc = Ok files ->
  files = acc ++ map we_input (List.filter is_json entries) /\
  Forall (fun d => we_err d = None) entries.
Proof.
  induction entries as [|d entries IH]; intros acc files Hw; simpl in Hw.
  - injection Hw as <-. simpl. rewrite app_nil_r. split; [reflexivity|constructor].
  - destruct (we_err d) eqn:Herr; [discriminate Hw|].
    simpl. unfold is_json at 1.
    destruct (String.eqb (AppleHV.filepath_Ext (we_name d)) ".json").
    + destruct (IH _ _ Hw) as (-> & Hall). simpl. rewrite <- app_assoc.
      split; [reflexivity|by constructor].
    + destruct (IH _ _ Hw) as (-> & Hall). split; [reflexivity|by constructor].
Qed.

Lemma walk_fails before d rest e : forall acc,
  Forall (fun d => we_err d = None) before ->
  we_err d = Some e ->
  AppleHV.walk (before ++ d :: rest) acc = Err e.
Proof.
  induction before as [|x before IH]; intros acc Hall Hd; simpl.
  - by rewrite Hd.
  - apply Forall_cons in Hall as [Hx Hall]. rewrite Hx.
    destruct (String.eqb (AppleHV.filepath_Ext (we_name x)) ".json"); by apply IH.
Qed.

Lemma loadAll_Ok h files : forall acc mms,
  AppleHV.loadAll h files acc = Ok mms ->
  exists loaded,
    mms = acc ++ loaded /\
    Forall2 (fun f mm => loadMacMachineFromJSON h f = Ok mm) files loaded.
Proof.
  induction files as [|f files IH]; intros acc mms Hl; simpl in Hl.
  - injection Hl as <-. exists []. rewrite app_nil_r. split; [reflexivity|constructor].
  - destruct (loadMacMachineFromJSON h f) as [mm|e] eqn:Hf; [|discriminate Hl].
    destruct (IH _ _ Hl) as (loaded & -> & Hall).
    exists (mm :: loaded). rewrite <- app_assoc. split; [reflexivity|].
    by constructor.
Qed.

Lemma loadFromLocalJson_pure h w : snd (AppleHV.loadFromLocalJson h w) = w.
Proof.
  unfold AppleHV.loadFromLocalJson. run.
  destruct (fault h GetConfDir); run; [reflexivity|].
  destruct (AppleHV.walk (confDirWalk h) []) as [files|e]; run; [|reflexivity].
  destruct (AppleHV.loadAll h files []); reflexivity.
Qed.

(** X15.  When loadFromLocalJson of the applehv backend succeeds, the
    machines it returns are exactly those loaded from the entries of the
    configuration directory whose name has the extension .json, one per
    entry and in the order of the walk; entries with another extension
    are not loaded.  Nothing is written. *)
Theorem loadFromLocalJson_loads_json_entries h w mms w' :
  AppleHV.loadFromLocalJson h w = (Ok mms, w') ->
  w' = w /\
  Forall2 (fun path mm => loadMacMachineFromJSON h path = Ok mm)
          (map we_input (List.filter is_json (confDirWalk h))) mms.
Proof.
  intros Hload.
  pose proof (loadFromLocalJson_pure h w) as Hpure.
  rewrite Hload in Hpure. simpl in Hpure. split; [exact Hpure|].
  unfold AppleHV.loadFromLocalJson in Hload. run.
  destruct (fault h GetConfDir); run; [discriminate Hload|].
  destruct (AppleHV.walk (confDirWalk h) []) as [files|e] eqn:Hwalk; run;
    [|discriminate Hload].
  apply walk_Ok in Hwalk as (-> & _). simpl in Hload.
  destruct (AppleHV.loadAll h _ []) as [ms|e] eqn:Hall; [|discriminate Hload].
  injection Hload as -> _.
  apply loadAll_Ok in Hall as (loaded & -> & Hall). exact Hall.
Qed.

Lemma loadFromLocalJson_loads_json_entries_witness :
  fst (AppleHV.loadFromLocalJson (Ref.fleet Ref.probe_refused) Ref.world0)
  = Ok [Ref.machine "/conf/applehv/a.json"; Ref.machine "/conf/applehv/b.json"] /\
  Forall2 (fun path mm => loadMacMachineFromJSON (Ref.fleet Ref.probe_refused) path = Ok mm)
          ["/conf/applehv/a.json"; "/conf/applehv/b.json"]
          [Ref.machine "/conf/applehv/a.json"; Ref.machine "/conf/applehv/b.json"].
Proof.
  split; [vm_compute; reflexivity|].
  exact (proj2 (loadFromLocalJson_loads_json_entries (Ref.fleet Ref.probe_refused)
                  Ref.world0 _ Ref.world0 eq_refl)).
Defined.

(** X16.  An error that the walk of the configuration directory reports
    for an entry ends loadFromLocalJson with that error, whatever comes
    after the entry and whether or not the configurations found before
    it could be loaded: the walk is finished before any configuration
    is loaded. *)
Theorem loadFromLocalJson_walk_error_first h w before d rest e :
  fault h GetConfDir = None ->
  confDirWalk h = before ++ d :: rest ->
  Forall (fun d => we_err d = None) before ->
  we_err d = Some e ->
  AppleHV.loadFromLocalJson h w = (Err e, w).
Proof.
  intros Hdir Hwalk Hall Hd.
  unfold AppleHV.loadFromLocalJson. run. rewrite Hdir. run.
  rewrite Hwalk, (walk_fails before d rest e [] Hall Hd). reflexivity.
Qed.

Lemma loadFromLocalJson_walk_error_first_witness :
  let h := {| fault := Ref.quiet; inspect_stdout := EmptyString; globalDataDir := "/data";
              tempDir := "/tmp"; vfkitHelper := "/opt/podman/bin/vfkit";
              confDir := "/conf/applehv";
              confDirWalk := [mkWalkEntry "/conf/applehv/a.json" "a.json" None;
                              mkWalkEntry "/conf/applehv/sub" "sub" (Some (Errno EACCES))];
              loadMacMachineFromJSON := fun _ => Err (Errno ENOENT);
              vfkitState := fun _ => Ok Running |} in
  AppleHV.loadFromLocalJson h Ref.world0 = (Err (Errno EACCES), Ref.world0).
Proof.
  intros h.
  apply (loadFromLocalJson_walk_error_first h Ref.world0
           [mkWalkEntry "/conf/applehv/a.json" "a.json" None]
           (mkWalkEntry "/conf/applehv/sub" "sub" (Some (Errno EACCES))) []).
  - reflexivity.
  - reflexivity.
  - constructor; [reflexivity|constructor].
  - reflexivity.
Defined.

(** ** What List reports *)

Lemma listLoop_Ok h mms : forall response rs,
  AppleHV.listLoop h mms response = Ok rs ->
  exists listed,
    rs = response ++ listed /\
    Forall2 (fun mm r => AppleHV.listOne h mm = Ok r) mms listed.
Proof.
  induction mms as [|mm mms IH]; intros response rs Hl; simpl in Hl.
  - injection Hl as <-. exists []. rewrite app_nil_r. split; [reflexivity|constructor].
  - destruct (AppleHV.listOne h mm) as [r|e] eqn:Hone; [|discriminate Hl].
    destruct (IH _ _ Hl) as (listed & -> & Hall).
    exists (r :: listed). rewrite <- app_assoc. split; [reflexivity|].
    by constructor.
Qed.

Lemma listOne_fields h mm r :
  AppleHV.listOne h mm = Ok r ->
  lr_Running r && lr_Starting r = false /\
  lr_VMType r = "applehv" /\
  lr_CPUs r = mm_CPUs mm /\
  (0 <= mm_Memory mm < 2 ^ 44 -> lr_Memory r = mm_Memory mm * 1048576) /\
  (0 <= mm_DiskSize mm < 2 ^ 34 -> lr_DiskSize r = mm_DiskSize mm * 1073741824).
Proof.
  unfold AppleHV.listOne. intros Hone.
  assert (Hst : exists st,
            r = {| lr_Name := mm_Name mm; lr_CreatedAt := mm_Created mm;
                   lr_LastUp := mm_LastUp mm;
                   lr_Running := AppleHV.status_eqb st Running;
                   lr_Starting := AppleHV.status_eqb st Starting;
                   lr_Stream := mm_ImageStream mm; lr_VMType := "applehv";
                   lr_CPUs := mm_CPUs mm;
                   lr_Memory := AppleHV.uint64 (mm_Memory mm * AppleHV.MiB);
                   lr_DiskSize := AppleHV.uint64 (mm_DiskSize mm * AppleHV.GiB);
                   lr_Port := mm_Port mm; lr_RemoteUsername := mm_RemoteUsername mm;
                   lr_IdentityPath := mm_IdentityPath mm |}).
  { destruct (vfkitState h (mm_Endpoint mm)) as [st|e].
    - injection Hone as <-. by exists st.
    - destruct (errors_Is e (Errno ECONNREFUSED)); [|discriminate Hone].
      injection Hone as <-. by exists Stopped. }
  destruct Hst as (st & ->). simpl.
  split; [by destruct st|]. split; [reflexivity|]. split; [reflexivity|].
  unfold AppleHV.uint64, AppleHV.MiB, AppleHV.GiB.
  split; intros Hb; apply Z.mod_small; lia.
Qed.

(** X17.  When List of the applehv backend succeeds it has written
    nothing, and it returns one response per machine loaded, in order.
    No response is both running and starting; every response has the
    machine type applehv and the machine's CPU count; the memory is the
    machine's MiB in bytes and the disk size its GiB in bytes, as long
    as the products fit 64 bits. *)
Theorem List_responses_mirror_machines h w rs w' :
  AppleHV.List h w = (Ok rs, w') ->
  w' = w /\
  exists mms,
    AppleHV.loadFromLocalJson h w = (Ok mms, w) /\
    Forall2 (fun mm r =>
               lr_Running r && lr_Starting r = false /\
               lr_VMType r = "applehv" /\
               lr_CPUs r = mm_CPUs mm /\
               (0 <= mm_Memory mm < 2 ^ 44 -> lr_Memory r = mm_Memory mm * 1048576) /\
               (0 <= mm_DiskSize mm < 2 ^ 34 ->
                lr_DiskSize r = mm_DiskSize mm * 1073741824))
            mms rs.
Proof.
  unfold AppleHV.List. intros Hlist.
  pose proof (loadFromLocalJson_pure h w) as Hpure.
  unfold bind, lift in Hlist.
  destruct (AppleHV.loadFromLocalJson h w) as [[mms|e] w1] eqn:Hload;
    simpl in Hpure; subst w1; [|discriminate Hlist].
  destruct (AppleHV.listLoop h mms []) as [rs'|e] eqn:Hloop; [|discriminate Hlist].
  injection Hlist as -> ->. split; [reflexivity|].
  exists mms. split; [reflexivity|].
  apply listLoop_Ok in Hloop as (listed & -> & Hall). simpl.
  clear Hload. induction Hall as [|mm r mms listed Hone _ IH]; constructor.
  - exact (listOne_fields h mm r Hone).
  - exact IH.
Qed.

Lemma List_responses_mirror_machines_witness :
  exists rs,
    fst (AppleHV.List (Ref.fleet Ref.probe_refused) Ref.world0) = Ok rs /\
    Forall2 (fun mm r =>
               lr_Running r && lr_Starting r = false /\
               lr_VMType r = "applehv" /\
               lr_CPUs r = mm_CPUs mm /\
               (0 <= mm_Memory mm < 2 ^ 44 -> lr_Memory r = mm_Memory mm * 1048576) /\
               (0 <= mm_DiskSize mm < 2 ^ 34 ->
                lr_DiskSize r = mm_DiskSize mm * 1073741824))
            [Ref.machine "/conf/applehv/a.json"; Ref.machine "/conf/applehv/b.json"] rs.
Proof.
  eexists. split; [vm_compute; reflexivity|].
  destruct (List_responses_mirror_machines (Ref.fleet Ref.probe_refused) Ref.world0
              _ Ref.world0 eq_refl) as (_ & mms & Hload & Hall).
  vm_compute in Hload. injection Hload as <-. exact Hall.
Defined.

(** ** Checks on the persisted machines *)

(** X18.  CheckExclusiveActiveVM reports the name of the first machine,
    in the order getVMInfos returns them, that is running or starting,
    whatever the machines after it; it reports no active machine, with
    an empty name, only if none is running or starting; and it fails
    only with the error of getVMInfos. *)
Theorem CheckExclusiveActiveVM_first_active infos :
  match AppleHVChecks.CheckExclusiveActiveVM infos with
  | Ok (true, name) =>
      exists before vm rest,
        infos = Ok (before ++ vm :: rest) /\
        Forall (fun v => active v = false) before /\
        active vm = true /\ name = lr_Name vm
  | Ok (false, name) =>
      name = EmptyString /\
      exists vms, infos = Ok vms /\ Forall (fun v => active v = false) vms
  | Err e => infos = Err e
  end.
Proof.
  destruct infos as [vms|e]; simpl; [|reflexivity].
  induction vms as [|v vms IH]; simpl.
  - split; [reflexivity|]. exists []. split; [reflexivity|constructor].
  - destruct (lr_Running v || lr_Starting v) eqn:Hact.
    + exists [], v, vms. split; [reflexivity|]. split; [constructor|].
      split; [exact Hact|reflexivity].
    + destruct (AppleHVChecks.firstActive vms) as [[|] name].
      * destruct IH as (before & vm & rest & Hvms & Hall & Hvm & ->).
        injection Hvms as ->.
        exists (v :: before), vm, rest. split; [reflexivity|].
        split; [by constructor|]. split; [exact Hvm|reflexivity].
      * destruct IH as (-> & vms' & Hvms & Hall). injection Hvms as <-.
        split; [reflexivity|]. exists (v :: vms). split; [reflexivity|].
        by constructor.
Qed.

(** X19.  IsValidVMName of the applehv backend writes nothing and never
    answers false: it answers true exactly when the configuration
    directory is found and the file of that directory named after the
    machine, with the extension .json, loads as a machine; otherwise it
    returns an error. *)
Theorem IsValidVMName_true_or_error `{GoLib} h name w :
  let out := AppleHVChecks.IsValidVMName h name w in
  snd out = w /\
  fst out <> Ok false /\
  (fst out = Ok true <->
   fault h GetConfDir = None /\
   exists mm, loadMacMachineFromJSON h (filepath_Join (confDir h) (name +:+ ".json"))
              = Ok mm).
Proof.
  unfold AppleHVChecks.IsValidVMName. run.
  destruct (fault h GetConfDir) as [e|]; run.
  - split; [reflexivity|]. split; [intros Hf; discriminate Hf|].
    split; [intros Hf; discriminate Hf|]. intros (Hf & _). discriminate Hf.
  - destruct (loadMacMachineFromJSON h _) as [mm|e] eqn:Hload; run.
    + split; [reflexivity|]. split; [intros Hf; discriminate Hf|].
      split; [|reflexivity]. intros _. split; [reflexivity|]. by exists mm.
    + split; [reflexivity|]. split; [intros Hf; discriminate Hf|].
      split; [intros Hf; discriminate Hf|]. intros (_ & mm & Hmm). discriminate Hmm.
Qed.
